(** * airflowctl: a shallow embedding of [src/airflowctl/__main__.py]

    The program is a command line tool with three commands, [init], [build]
    and [start].  Each one is a straight sequence of file-system operations,
    look-ups in a parsed YAML document and child processes.  The embedding
    keeps that shape: a [World] (file system, process environment, trace of
    observable events) is threaded through a small state-and-exception monad,
    and every Python function of the source becomes one definition of the
    same name.

    What the program obtains from outside (the YAML parser, [str()] of a
    parsed value, [dotenv], [venv.create], the child processes and
    [os.path.abspath]) is collected in the class [Host]; nothing is assumed
    about it. *)

From stdpp Require Import gmap strings list fin_maps pretty.
From Stdlib Require Import Ascii String ZArith.

Set Warnings "-register-all".

Local Open Scope string_scope.
Local Open Scope list_scope.

(** ** Paths and the file system *)

(** An absolute path is the list of its components below the root:
    [/home/me/proj] is [["home"; "me"; "proj"]]. *)
Definition path := list string.

Inductive node :=
  | File (content : string)
  | Dir.

#[export] Instance node_eq_dec : EqDecision node.
Proof. solve_decision. Defined.

(** The file system maps the paths that exist to what is there. The root is
    always a directory. *)
Abbreviation FS := (gmap (list string) node).

Definition node_at (fs : FS) (p : path) : option node :=
  match p with
  | [] => Some Dir
  | _ => fs !! p
  end.

(** [os.path.exists] / [Path.exists] *)
Definition exists_ (fs : FS) (p : path) : bool :=
  match node_at fs p with Some _ => true | None => false end.

Definition parent (p : path) : path := removelast p.

(** [p / name] *)
Definition child (p : path) (name : string) : path := p ++ [name].

(** The name of [k] inside directory [p], when [k] is an entry of [p]. *)
Fixpoint entry_name (p k : path) : option string :=
  match p, k with
  | [], [n] => Some n
  | a :: p', b :: k' => if decide (a = b) then entry_name p' k' else None
  | _, _ => None
  end.

(** [os.listdir]: the names of the entries of [p], taken at once. *)
Definition listdir (fs : FS) (p : path) : list string :=
  omap (fun kv => entry_name p kv.1) (map_to_list fs).

(** [shutil.rmtree]: everything at or below [p] goes. *)
Definition remove_tree (p : path) (fs : FS) : FS :=
  filter (fun kv => ¬ p `prefix_of` kv.1) fs.

(** [str(path)] on a POSIX host *)
Fixpoint join_components (p : path) : string :=
  match p with
  | [] => ""
  | c :: p' => "/" +:+ c +:+ join_components p'
  end.

Definition path_str (p : path) : string :=
  match p with
  | [] => "/"
  | _ => join_components p
  end.

Definition starts_with_sep (s : string) : bool :=
  match s with
  | String c _ => bool_decide (c = "/"%char)
  | EmptyString => false
  end.

Fixpoint ends_with_sep (s : string) : bool :=
  match s with
  | EmptyString => false
  | String c EmptyString => bool_decide (c = "/"%char)
  | String _ s' => ends_with_sep s'
  end.

(** [posixpath.join] of two strings *)
Definition os_path_join (a b : string) : string :=
  if starts_with_sep b then b
  else if bool_decide (a = "") || ends_with_sep a then a +:+ b
  else a +:+ "/" +:+ b.

Definition nl : string := String (Ascii.ascii_of_nat 10) EmptyString.
Definition dquote : string := String (Ascii.ascii_of_nat 34) EmptyString.

Definition unlines (ls : list string) : string := String.concat nl ls.

(** ** Parsed documents *)

(** What [yaml.safe_load] and [response.json()] return. A mapping is kept as
    the list of its string-keyed bindings (a key of another type can never
    be equal to the string keys the program asks for); [PScalar] stands for
    a scalar of any other type (a float, a date), known by its [str()]. *)
Inductive pyval :=
  | PNone
  | PBool (b : bool)
  | PInt (z : Z)
  | PScalar (shown : string)
  | PStr (s : string)
  | PList (items : list pyval)
  | PDict (bindings : list (string * pyval)).

Fixpoint dict_get (k : string) (d : list (string * pyval)) : option pyval :=
  match d with
  | [] => None
  | (k', v) :: d' => if decide (k' = k) then Some v else dict_get k d'
  end.

Definition is_str (k : string) (v : pyval) : bool :=
  match v with
  | PStr s => bool_decide (s = k)
  | _ => false
  end.

(** [k in s] for two strings *)
Definition substring_of (k s : string) : bool :=
  match String.index 0 k s with Some _ => true | None => false end.

(** ** Outcomes *)

Inductive exn :=
  | FileNotFoundError | FileExistsError | IsADirectoryError
  | NotADirectoryError | OSError
  | TypeError | AttributeError
  | KeyError (key : string)
  | YAMLError | JSONDecodeError | UnicodeDecodeError
  | MarkupError                                     (* rich.errors *)
  | RequestError (why : string)                     (* httpx.RequestError *)
  | CalledProcessError (cmd : string) (status : Z). (* subprocess *)

Inductive error :=
  | TyperExit (code : Z)     (* raise typer.Exit(code) *)
  | TyperAbort               (* typer.Abort, raised by confirm(abort=True) *)
  | SystemExit               (* raise SystemExit() *)
  | Exc (e : exn).           (* any other exception *)

#[export] Instance exn_eq_dec : EqDecision exn.
Proof. solve_decision. Defined.
#[export] Instance error_eq_dec : EqDecision error.
Proof. solve_decision. Defined.

(** The status the process ends with when the error reaches the top:
    [SystemExit()] carries no code, which Python turns into status 0; an
    exception nobody catches ends the interpreter with status 1. *)
Definition exit_code (e : error) : Z :=
  match e with
  | TyperExit c => c
  | TyperAbort => 1
  | SystemExit => 0
  | Exc _ => 1
  end.

Inductive event :=
  | EvEcho (msg : string)                  (* typer.echo / print *)
  | EvConfirm (msg : string)               (* typer.confirm *)
  | EvRmtree (p : path)                    (* shutil.rmtree *)
  | EvVenvCreate (p : path)                (* venv.create *)
  | EvRun (argv : list string)             (* subprocess.run([...]) *)
  | EvShell (cmd : string).                (* subprocess.run(cmd, shell=True) *)


Definition is_process (e : event) : bool :=
  match e with EvRun _ | EvShell _ => true | _ => false end.

Record World := mkWorld {
  fs : FS;
  environ : gmap string string;
  trace : list event;
}.

Inductive result (A : Type) :=
  | Ok (a : A)
  | Raise (e : error).
Arguments Ok {A} a.
Arguments Raise {A} e.

Definition M (A : Type) : Type := World -> result A * World.

Definition ret {A} (a : A) : M A := fun w => (Ok a, w).
Definition raise {A} (e : error) : M A := fun w => (Raise e, w).
Definition bind {A B} (m : M A) (k : A -> M B) : M B :=
  fun w => match m w with
           | (Ok a, w') => k a w'
           | (Raise e, w') => (Raise e, w')
           end.

Notation "x <- m ;; k" := (bind m (fun x => k))
  (at level 100, m at next level, right associativity).
Notation "m ;;; k" := (bind m (fun _ => k))
  (at level 100, right associativity).

Definition get_fs : M FS := fun w => (Ok (fs w), w).
Definition set_fs (f : FS) : M unit :=
  fun w => (Ok tt, mkWorld f (environ w) (trace w)).
Definition get_environ : M (gmap string string) := fun w => (Ok (environ w), w).
Definition set_environ (e : gmap string string) : M unit :=
  fun w => (Ok tt, mkWorld (fs w) e (trace w)).
Definition emit (e : event) : M unit :=
  fun w => (Ok tt, mkWorld (fs w) (environ w) (trace w ++ [e])).
Definition echo (msg : string) : M unit := emit (EvEcho msg).
Definition when (b : bool) (m : M unit) : M unit := if b then m else ret tt.

(** [try: m except <handled>: handler] *)
Definition try_except {A} (m : M A) (handled : exn -> bool)
    (handler : exn -> M A) : M A :=
  fun w => match m w with
           | (Raise (Exc e), w') =>
               if handled e then handler e w' else (Raise (Exc e), w')
           | r => r
           end.

Fixpoint for_each {A} (l : list A) (body : A -> M unit) : M unit :=
  match l with
  | [] => ret tt
  | x :: l' => body x ;;; for_each l' body
  end.

(** ** File-system primitives, as [pathlib] and [open] behave *)

(** The error of reaching for a path that is not there. *)
Definition missing_error (f : FS) (p : path) : error :=
  match node_at f (parent p) with
  | Some (File _) => Exc NotADirectoryError
  | _ => Exc FileNotFoundError
  end.

(** [Path.mkdir(exist_ok=True)] *)
Definition mkdir_exist_ok (p : path) : M unit :=
  f <- get_fs ;;
  match node_at f p with
  | Some Dir => ret tt
  | Some (File _) => raise (Exc FileExistsError)
  | None =>
      match node_at f (parent p) with
      | Some Dir => set_fs (<[p := Dir]> f)
      | _ => raise (missing_error f p)
      end
  end.

(** [Path.touch(exist_ok=True)]: an existing entry only gets its times
    updated, a missing one becomes an empty file. *)
Definition touch_exist_ok (p : path) : M unit :=
  f <- get_fs ;;
  match node_at f p with
  | Some _ => ret tt
  | None =>
      match node_at f (parent p) with
      | Some Dir => set_fs (<[p := File ""]> f)
      | _ => raise (missing_error f p)
      end
  end.

(** [open(p, "w").write(text)] and [Path.write_text]: create or truncate. *)
Definition write_text (p : path) (text : string) : M unit :=
  f <- get_fs ;;
  match node_at f p with
  | Some Dir => raise (Exc IsADirectoryError)
  | Some (File _) => set_fs (<[p := File text]> f)
  | None =>
      match node_at f (parent p) with
      | Some Dir => set_fs (<[p := File text]> f)
      | _ => raise (missing_error f p)
      end
  end.

(** [if not p.exists(): p.write_text(text)] *)
Definition write_if_absent (p : path) (text : string) : M unit :=
  f <- get_fs ;; when (negb (exists_ f p)) (write_text p text).

(** [open(p).read()] and [Path.read_text] *)
Definition read_text (p : path) : M string :=
  f <- get_fs ;;
  match node_at f p with
  | Some (File text) => ret text
  | Some Dir => raise (Exc IsADirectoryError)
  | None => raise (missing_error f p)
  end.

(** [Path.iterdir], which lists the directory when the loop starts. *)
Definition iterdir (p : path) : M (list string) :=
  f <- get_fs ;;
  match node_at f p with
  | Some Dir => ret (listdir f p)
  | Some (File _) => raise (Exc NotADirectoryError)
  | None => raise (missing_error f p)
  end.

(** [typer.confirm(msg, abort=True)]; [answer] is what the user replies. *)
Definition confirm_or_abort (answer : bool) (msg : string) : M unit :=
  emit (EvConfirm msg) ;;;
  if answer then ret tt else raise TyperAbort.

(** ** The host *)

(** How a child process ended: with a status, its captured output and the
    file system it left, or not started at all ([OSError]). *)
Inductive proc_result :=
  | Exited (status : Z) (out : string) (after : FS)
  | SpawnFailed.

Class Host := {
  (** [Path(__file__).parent], where the package is installed *)
  package_dir : path;
  (** [os.name] *)
  os_name : string;
  (** [yaml.safe_load]; [None] when it raises *)
  yaml_safe_load : string -> option pyval;
  (** [str(v)], as an f-string renders a value *)
  py_str : pyval -> string;
  (** the assignments [load_dotenv] reads from a file, or [str(e)] of the
      exception it raises *)
  dotenv_values : string -> string + list (string * string);
  (** [os.path.abspath] *)
  abspath : string -> string;
  (** [venv.create(p, with_pip=True)]; [None] when it raises *)
  venv_create : path -> FS -> option FS;
  (** when it raises: the exception, and the file system it leaves behind
      (the directories and the interpreter are made before [pip] is) *)
  venv_create_failure : path -> FS -> exn * FS;
  (** [subprocess.run(argv)] *)
  run_argv : list string -> gmap string string -> FS -> proc_result;
  (** [subprocess.run(cmd, shell=True)] *)
  run_shell : string -> gmap string string -> FS -> proc_result;
  (** whether [rich] renders a text as console markup; it raises
      [MarkupError] on a closing tag that matches no open one *)
  rich_markup_ok : string -> bool;
  (** how [CalledProcessError] words the signal [n] that killed a process:
      [repr(signal.Signals(n))], or [unknown signal n] *)
  signal_repr : Z -> string;
}.

(** ** [create_project] *)

Definition HIDDEN_CONFIG_FILENAME : string := ".airflowctl/config.yaml".
Definition SETTINGS_FILENAME : string := "settings.yaml".

Definition gitignore_text : string :=
  unlines [".git"; "airflow.cfg"; "airflow.db"; "airflow-webserver.pid";
           "logs"; ".DS_Store"; "__pycache__/"; ".env"; ".venv";
           ".airflowctl"].

Definition settings_text (airflow_version python_version : string) : string :=
  unlines ["# Airflow version to be installed";
           "airflow_version: " +:+ airflow_version;
           "# Python version for the project";
           "python_version: " +:+ dquote +:+ python_version +:+ dquote;
           "";
           "# Airflow conn";
           "connections: {}";
           "# Airflow vars";
           "variables: {}"].

Definition env_text (project_dir : path) : string :=
  unlines ["AIRFLOW_HOME=" +:+ path_str project_dir;
           "AIRFLOW__CORE__LOAD_EXAMPLES=False";
           "AIRFLOW__CORE__EXECUTOR=LocalExecutor"].

(** The body of the loop over the bundled example DAGs. *)
Definition copy_example (from_dir dags_dir : path) (name : string) : M unit :=
  f <- get_fs ;;
  if exists_ f (child dags_dir name) then ret tt
  else
    text <- read_text (child from_dir name) ;;
    write_text (child dags_dir name) text.

Section Program.
Context `{Host}.

(** [project_dir] is [Path(project_name).absolute()]; [answer] is the reply
    to the confirmation prompt, should it be asked. *)
Definition create_project (answer : bool) (project_dir : path)
    (airflow_version python_version : string) : M unit :=
  mkdir_exist_ok project_dir ;;;
  entries <- iterdir project_dir ;;
  when (bool_decide (entries ≠ []))
       (confirm_or_abort answer
          ("Directory " +:+ path_str project_dir +:+ " is not empty. Continue?")) ;;;
  let dags_dir := child project_dir "dags" in
  mkdir_exist_ok dags_dir ;;;
  let from_dir := child package_dir "dags" in
  names <- iterdir from_dir ;;
  for_each names (copy_example from_dir dags_dir) ;;;
  let plugins_dir := child project_dir "plugins" in
  mkdir_exist_ok plugins_dir ;;;
  let requirements_file := child project_dir "requirements.txt" in
  touch_exist_ok requirements_file ;;;
  let gitignore_file := child project_dir ".gitignore" in
  touch_exist_ok gitignore_file ;;;
  write_text gitignore_file gitignore_text ;;;
  let settings_file := child project_dir SETTINGS_FILENAME in
  write_if_absent settings_file
    (settings_text airflow_version python_version) ;;;
  let env_file := child project_dir ".env" in
  write_if_absent env_file (env_text project_dir) ;;;
  echo ("Airflow project initialized in " +:+ path_str project_dir).

(** ** [get_latest_airflow_version] *)

(** What [response.json()] makes of the body of a response: the decoded
    value, a [JSONDecodeError] for text that is not JSON, or a
    [UnicodeDecodeError] for bytes that are not text. *)
Inductive body :=
  | Decodes (data : pyval)
  | NotJSON
  | NotText.

(** What the GET of the package index comes to: [httpx] raises a
    [RequestError], or a response arrives. *)
Inductive http_reply :=
  | RequestFailed (why : string)
  | Replied (content : body).

(** [v[k]] for a string [k] *)
Definition subscript (v : pyval) (k : string) : M pyval :=
  match v with
  | PDict d =>
      match dict_get k d with
      | Some x => ret x
      | None => raise (Exc (KeyError k))
      end
  | _ => raise (Exc TypeError)
  end.

(** [str(e)] for the exceptions whose text the program prints. A negative
    status stands for a process killed by a signal, which
    [CalledProcessError] words differently. *)
Definition exn_str (e : exn) : string :=
  match e with
  | KeyError k => "'" +:+ k +:+ "'"
  | RequestError why => why
  | CalledProcessError cmd status =>
      if bool_decide (status < 0)%Z then
        "Command '" +:+ cmd +:+ "' died with " +:+ signal_repr (- status)
        +:+ "."
      else
        "Command '" +:+ cmd +:+ "' returned non-zero exit status "
        +:+ pretty status +:+ "."
  | _ => ""
  end.

Definition is_request_or_key_error (e : exn) : bool :=
  match e with
  | RequestError _ | KeyError _ => true
  | _ => false
  end.

Definition is_called_process_error (e : exn) : bool :=
  match e with
  | CalledProcessError _ _ => true
  | _ => false
  end.

Definition client_get (reply : http_reply) : M body :=
  match reply with
  | RequestFailed why => raise (Exc (RequestError why))
  | Replied content => ret content
  end.

Definition response_json (content : body) : M pyval :=
  match content with
  | Decodes data => ret data
  | NotJSON => raise (Exc JSONDecodeError)
  | NotText => raise (Exc UnicodeDecodeError)
  end.

(** [print] is [rich]'s (line 14): the text is console markup, and [rich]
    raises [MarkupError] on markup it refuses. This function prints a value
    that came over the network, or the text of an exception, inside its
    markup, so the refusal is part of what it does. *)
Definition rich_print (msg : string) : M unit :=
  if rich_markup_ok msg then emit (EvEcho msg) else raise (Exc MarkupError).

Definition detected_message (latest_version : pyval) : string :=
  "Latest Apache Airflow version detected: [bold cyan]"
  +:+ py_str latest_version +:+ "[/bold cyan]".

Definition retrieval_error_message (e : exn) : string :=
  "[bold red]Error occurred while retrieving latest version: "
  +:+ exn_str e +:+ "[/bold red]".

Definition defaulting_message : string :=
  "[bold yellow]Defaulting to Apache Airflow version 2.7.0[/bold yellow]".

Definition get_latest_airflow_version (verbose : bool) (reply : http_reply)
    : M pyval :=
  try_except
    (response <- client_get reply ;;
     data <- response_json response ;;
     info <- subscript data "info" ;;
     latest_version <- subscript info "version" ;;
     when verbose (rich_print (detected_message latest_version)) ;;;
     ret latest_version)
    is_request_or_key_error
    (fun e =>
       when verbose
         (rich_print (retrieval_error_message e) ;;;
          rich_print defaulting_message) ;;;
       ret (PStr "2.7.0")).

(** [init]: [airflow_version] and [python_version] arrive as strings from the
    command line (or from their defaults). *)
Definition init (answer : bool) (project_dir : path)
    (airflow_version python_version : string) : M unit :=
  create_project answer project_dir airflow_version python_version.

(** ** The virtual environment *)

Definition rmtree (p : path) : M unit :=
  emit (EvRmtree p) ;;;
  f <- get_fs ;;
  match node_at f p with
  | Some Dir => set_fs (remove_tree p f)
  | Some (File _) => raise (Exc NotADirectoryError)
  | None => raise (missing_error f p)
  end.

Definition venv_create_with_pip (p : path) : M unit :=
  emit (EvVenvCreate p) ;;;
  f <- get_fs ;;
  match venv_create p f with
  | Some f' => set_fs f'
  | None =>
      let failure := venv_create_failure p f in
      set_fs failure.2 ;;; raise (Exc failure.1)
  end.

Definition bin_python (venv_path : path) : path := venv_path ++ ["bin"; "python"].

Definition verify_or_create_venv (venv_path : path) (recreate : bool) : M path :=
  f <- get_fs ;;
  when (recreate && exists_ f venv_path)
       (echo ("Recreating virtual environment at [bold blue]"
              +:+ path_str venv_path +:+ "[/bold blue]") ;;;
        rmtree venv_path) ;;;
  let venv_bin_python := bin_python venv_path in
  f <- get_fs ;;
  when (exists_ f venv_path && negb (exists_ f venv_bin_python))
       (echo ("[bold red]Virtual environment at " +:+ path_str venv_path
              +:+ " does not exist or is not valid.[/bold red]") ;;;
        raise SystemExit) ;;;
  f <- get_fs ;;
  when (negb (exists_ f venv_path))
       (venv_create_with_pip venv_path ;;;
        echo ("Virtual environment created at [bold blue]"
              +:+ path_str venv_path +:+ "[/bold blue]")) ;;;
  ret venv_path.

(** ** Child processes *)

(** [subprocess.run(argv, check=True, capture_output=True)] *)
Definition subprocess_run_argv (argv : list string) : M string :=
  emit (EvRun argv) ;;;
  f <- get_fs ;;
  env <- get_environ ;;
  match run_argv argv env f with
  | Exited status out f' =>
      set_fs f' ;;;
      if bool_decide (status = 0%Z) then ret out
      else raise (Exc (CalledProcessError (String.concat " " argv) status))
  | SpawnFailed => raise (Exc OSError)
  end.

(** [subprocess.run(cmd, shell=True, check=True)] *)
Definition subprocess_run_shell (cmd : string) : M unit :=
  emit (EvShell cmd) ;;;
  f <- get_fs ;;
  env <- get_environ ;;
  match run_shell cmd env f with
  | Exited status _ f' =>
      set_fs f' ;;;
      if bool_decide (status = 0%Z) then ret tt
      else raise (Exc (CalledProcessError cmd status))
  | SpawnFailed => raise (Exc OSError)
  end.

Definition version_probe (venv_path : path) : list string :=
  [path_str (bin_python venv_path); "-m"; "airflow"; "version"].

Definition is_airflow_installed (venv_path : path) : M bool :=
  let venv_bin_python := bin_python venv_path in
  f <- get_fs ;;
  if negb (exists_ f venv_bin_python) then ret false
  else
    try_except
      (subprocess_run_argv (version_probe venv_path) ;;; ret true)
      is_called_process_error
      (fun _ => ret false).

Definition install_command (version : pyval) (venv_path : path)
    (constraints_url extras requirements : string) : string :=
  let venv_bin_python := path_str (bin_python venv_path) in
  let upgrade_pipeline_command :=
    venv_bin_python +:+ " -m pip install --upgrade pip setuptools wheel" in
  let command :=
    upgrade_pipeline_command +:+ " && " +:+ venv_bin_python
    +:+ " -m pip install 'apache-airflow==" +:+ py_str version +:+ extras
    +:+ "' --constraint " +:+ constraints_url in
  if bool_decide (requirements = "") then command
  else command +:+ " -r " +:+ requirements.

Definition install_airflow (version : pyval) (venv_path : path)
    (constraints_url extras requirements : string) (verbose : bool) : M unit :=
  installed <- is_airflow_installed venv_path ;;
  if installed then
    echo ("[bold yellow]Apache Airflow " +:+ py_str version
          +:+ " is already installed. Skipping installation.[/bold yellow]")
  else
    f <- get_fs ;;
    when (negb (exists_ f (bin_python venv_path)))
         (echo ("[bold red]Virtual environment at " +:+ path_str venv_path
                +:+ " does not exist or is not valid.[/bold red]") ;;;
          raise SystemExit) ;;;
    let cmd :=
      install_command version venv_path constraints_url extras requirements in
    try_except
      (when verbose (echo ("Running command: [bold]" +:+ cmd +:+ "[/bold]")) ;;;
       subprocess_run_shell cmd ;;;
       echo ("[bold green]Apache Airflow " +:+ py_str version
             +:+ " installed successfully![/bold green]") ;;;
       echo ("Virtual environment at " +:+ path_str venv_path))
      is_called_process_error
      (fun _ =>
         echo "[bold red]Error occurred during installation.[/bold red]" ;;;
         raise SystemExit).

(** ** [build] *)

(** [key in settings] *)
Definition py_contains (key : string) (settings : pyval) : M bool :=
  match settings with
  | PDict d => ret (bool_decide (is_Some (dict_get key d)))
  | PList items => ret (existsb (is_str key) items)
  | PStr s => ret (substring_of key s)
  | _ => raise (Exc TypeError)
  end.

Definition _get_conf_or_raise (key : string) (settings : pyval) : M pyval :=
  present <- py_contains key settings ;;
  when (negb present)
       (echo ("Key '" +:+ key +:+ "' not found in settings file.") ;;;
        raise (TyperExit 1)) ;;;
  subscript settings key.

Definition safe_load (text : string) : M pyval :=
  match yaml_safe_load text with
  | Some doc => ret doc
  | None => raise (Exc YAMLError)
  end.

Definition constraints_url_of (airflow_version python_version : pyval) : string :=
  "https://raw.githubusercontent.com/apache/airflow/constraints-"
  +:+ py_str airflow_version +:+ "/constraints-" +:+ py_str python_version
  +:+ ".txt".

(** [project_path], [settings_file] and [venv_path] are the absolute paths
    the three options come to. *)
Definition build (project_path settings_file venv_path : path)
    (recreate_venv : bool) : M unit :=
  f <- get_fs ;;
  when (negb (exists_ f (child project_path SETTINGS_FILENAME)))
       (echo ("Settings file '" +:+ path_str settings_file +:+ "' not found.") ;;;
        raise (TyperExit 1)) ;;;
  text <- read_text settings_file ;;
  config <- safe_load text ;;
  airflow_version <- _get_conf_or_raise "airflow_version" config ;;
  python_version <- _get_conf_or_raise "python_version" config ;;
  let constraints_url := constraints_url_of airflow_version python_version in
  venv_path <- verify_or_create_venv venv_path recreate_venv ;;
  install_airflow airflow_version venv_path constraints_url "" "" false ;;;
  echo "Airflow project built successfully.".

(** ** [start] *)

(** [load_dotenv] keeps the variables the environment already has. *)
Definition setdefault_all (kvs : list (string * string))
    (env : gmap string string) : gmap string string :=
  foldl (fun e kv => match e !! kv.1 with
                     | Some _ => e
                     | None => <[kv.1 := kv.2]> e
                     end) env kvs.

(** [load_dotenv] reads nothing from a path that is not a regular file. *)
Definition source_env_file (env_file : path) : M unit :=
  f <- get_fs ;;
  match node_at f env_file with
  | Some (File text) =>
      match dotenv_values text with
      | inr kvs => env <- get_environ ;; set_environ (setdefault_all kvs env)
      | inl why =>
          echo ("Error loading .env file: " +:+ why) ;;;
          raise (TyperExit 1)
      end
  | _ => ret tt
  end.

Definition activate_virtualenv (venv_path : string) : M string :=
  if bool_decide (os_name = "posix") then
    let bin_path := os_path_join (os_path_join venv_path "bin") "activate" in
    ret ("source " +:+ bin_path)
  else if bool_decide (os_name = "nt") then
    let bin_path := os_path_join (os_path_join venv_path "Scripts") "activate" in
    ret ("call " +:+ bin_path)
  else
    echo "Unsupported operating system." ;;;
    raise (TyperExit 1).

Definition setenv (k v : string) : M unit :=
  env <- get_environ ;; set_environ (<[k := v]> env).

(** [config.get(k)] and [config.get(k, default)] *)
Definition py_get (config : pyval) (k : string) (default : pyval) : M pyval :=
  match config with
  | PDict d =>
      match dict_get k d with
      | Some v => ret v
      | None => ret default
      end
  | _ => raise (Exc AttributeError)
  end.

(** [os.path.abspath(v)], which wants a string *)
Definition os_path_abspath (v : pyval) : M string :=
  match v with
  | PStr s => ret (abspath s)
  | _ => raise (Exc TypeError)
  end.

Definition start (project_path : path) : M unit :=
  let config_file := child project_path "config.yaml" in
  let env_file := child project_path ".env" in
  f <- get_fs ;;
  when (negb (exists_ f config_file))
       (echo ("Config file '" +:+ path_str config_file +:+ "' not found.") ;;;
        raise (TyperExit 1)) ;;;
  f <- get_fs ;;
  when (negb (exists_ f env_file))
       (echo ".env file not found." ;;;
        raise (TyperExit 1)) ;;;
  text <- read_text config_file ;;
  config <- safe_load text ;;
  source_env_file env_file ;;;
  setenv "AIRFLOW_HOME" (path_str project_path) ;;;
  setenv "AIRFLOW__DATABASE__SQL_ALCHEMY_CONN"
         ("sqlite:///" +:+ abspath (os_path_join (path_str project_path) "airflow.db")) ;;;
  airflow_version <- py_get config "airflow_version" PNone ;;
  python_version <- py_get config "python_version" PNone ;;
  let default :=
    os_path_join (path_str project_path)
      (".venv/airflow_" +:+ py_str airflow_version +:+ "_py"
       +:+ py_str python_version) in
  chosen <- py_get config "venv_path" (PStr default) ;;
  venv_path <- os_path_abspath chosen ;;
  activate_cmd <- activate_virtualenv venv_path ;;
  try_except
    (subprocess_run_shell (activate_cmd +:+ " && airflow standalone"))
    is_called_process_error
    (fun e =>
       echo ("Error starting Airflow: " +:+ exn_str e) ;;;
       raise (TyperExit 1)).

End Program.

(** ** A sample host and sample worlds *)

(** A host on which every child process succeeds and leaves the file system
    alone, and whose YAML reader knows the three documents used below. *)
Definition sample_settings : string :=
  settings_text "2.7.0" "3.10".

Definition sample_doc : pyval :=
  PDict [("airflow_version", PStr "2.7.0"); ("python_version", PStr "3.10");
         ("connections", PDict []); ("variables", PDict [])].

Definition sample_load (text : string) : option pyval :=
  if bool_decide (text = sample_settings) then Some sample_doc
  else if bool_decide (text = "python_version: 3") then
    Some (PDict [("python_version", PInt 3)])
  else if bool_decide (text = "venv_path: /opt/venv") then
    Some (PDict [("venv_path", PStr "/opt/venv")])
  else None.

Definition sample_str (v : pyval) : string :=
  match v with
  | PStr s => s
  | PNone => "None"
  | PInt z => pretty z
  | PBool true => "True"
  | PBool false => "False"
  | PScalar shown => shown
  | _ => "?"
  end.

Definition sample_host : Host := {|
  package_dir := ["site"; "airflowctl"];
  os_name := "posix";
  yaml_safe_load := sample_load;
  py_str := sample_str;
  dotenv_values := fun _ => inr [];
  abspath := fun s => s;
  venv_create := fun p f => Some (<[bin_python p := File "python"]>
                                  (<[p ++ ["bin"] := Dir]> (<[p := Dir]> f)));
  venv_create_failure := fun p f =>
    (CalledProcessError "ensurepip" 1,
     <[bin_python p := File "python"]>
       (<[p ++ ["bin"] := Dir]> (<[p := Dir]> f)));
  run_argv := fun _ _ f => Exited 0 "2.6.3" f;
  run_shell := fun _ _ f => Exited 0 "" f;
  rich_markup_ok := fun msg => negb (substring_of "[/x]" msg);
  signal_repr := fun n => "unknown signal " +:+ pretty n;
|}.

(** The package with one bundled DAG, and a home directory. *)
Definition fresh_fs : FS :=
  list_to_map [(["site"], Dir); (["site"; "airflowctl"], Dir);
               (["site"; "airflowctl"; "dags"], Dir);
               (["site"; "airflowctl"; "dags"; "example.py"], File "dag = 1");
               (["home"], Dir)].

Definition world_of (f : FS) : World := mkWorld f ∅ [].

Definition proj : path := ["home"; "proj"].

(** The same after a first [init] of [/home/proj], whose user then edited
    three of the files. *)
Definition edited_fs : FS :=
  <[child proj ".gitignore" := File "secrets/"]>
  (<[child proj ".env" := File "AIRFLOW_HOME=/elsewhere"]>
  (<[child proj SETTINGS_FILENAME := File "airflow_version: 2.5.0"]>
   (fs (create_project (H := sample_host) true proj "2.7.0" "3.10"
          (world_of fresh_fs)).2))).

(** [/home/proj] right after a first [init]. *)
Definition initial_fs : FS :=
  fs (create_project (H := sample_host) true proj "2.7.0" "3.10"
        (world_of fresh_fs)).2.

Definition venv : path := child proj ".venv".

(** The project once [build] has made its virtual environment. *)
Definition built_fs : FS :=
  <[bin_python venv := File "python"]>
  (<[child venv "bin" := Dir]> (<[venv := Dir]> initial_fs)).

(** The project with a settings file that names no Airflow version. *)
Definition unversioned_fs : FS :=
  <[child proj SETTINGS_FILENAME := File "python_version: 3"]> initial_fs.

(** The project with a [config.yaml] that names no Airflow version. *)
Definition launch_fs : FS :=
  <[child proj "config.yaml" := File "python_version: 3"]> initial_fs.


(** A host on which Airflow is not installed, every shell command succeeds
    and [.env] assigns two variables. *)
Definition installing_host : Host := {|
  package_dir := ["site"; "airflowctl"];
  os_name := "posix";
  yaml_safe_load := sample_load;
  py_str := sample_str;
  dotenv_values := fun _ => inr [("AIRFLOW_HOME", "/from/dotenv"); ("TZ", "UTC")];
  abspath := fun s => s;
  venv_create := fun p f => Some (<[bin_python p := File "python"]>
                                  (<[p ++ ["bin"] := Dir]> (<[p := Dir]> f)));
  venv_create_failure := fun p f =>
    (CalledProcessError "ensurepip" 1,
     <[bin_python p := File "python"]>
       (<[p ++ ["bin"] := Dir]> (<[p := Dir]> f)));
  run_argv := fun _ _ f => Exited 1 "" f;
  run_shell := fun _ _ f => Exited 0 "" f;
  rich_markup_ok := fun msg => negb (substring_of "[/x]" msg);
  signal_repr := fun n => "unknown signal " +:+ pretty n;
|}.

(** A host on which no shell command succeeds. *)
Definition offline_host : Host := {|
  package_dir := ["site"; "airflowctl"];
  os_name := "posix";
  yaml_safe_load := sample_load;
  py_str := sample_str;
  dotenv_values := fun _ => inr [];
  abspath := fun s => s;
  venv_create := fun p f => Some (<[bin_python p := File "python"]>
                                  (<[p ++ ["bin"] := Dir]> (<[p := Dir]> f)));
  venv_create_failure := fun p f =>
    (CalledProcessError "ensurepip" 1,
     <[bin_python p := File "python"]>
       (<[p ++ ["bin"] := Dir]> (<[p := Dir]> f)));
  run_argv := fun _ _ f => Exited 1 "" f;
  run_shell := fun _ _ f => Exited 1 "" f;
  rich_markup_ok := fun msg => negb (substring_of "[/x]" msg);
  signal_repr := fun n => "unknown signal " +:+ pretty n;
|}.




(** The project with a [config.yaml] that names the environment. *)
Definition configured_fs : FS :=
  <[child proj "config.yaml" := File "venv_path: /opt/venv"]> initial_fs.

(** The configured project without its [.env]. *)
Definition no_env_fs : FS := delete (child proj ".env") configured_fs.

(** The project whose user has rewritten the example DAG. *)
Definition edited_dag_fs : FS :=
  <[child (child proj "dags") "example.py" := File "dag = 2"]> initial_fs.

(** The project with an empty [config.yaml]. *)
Definition empty_config_fs : FS :=
  <[child proj "config.yaml" := File ""]> initial_fs.

(** A host that is neither POSIX nor Windows, and whose YAML reader loads
    the empty document as [None]. *)
Definition other_host : Host := {|
  package_dir := ["site"; "airflowctl"];
  os_name := "java";
  yaml_safe_load := fun text =>
    if bool_decide (text = "") then Some PNone else sample_load text;
  py_str := sample_str;
  dotenv_values := fun _ => inr [];
  abspath := fun s => s;
  venv_create := fun _ _ => None;
  venv_create_failure := fun p f =>
    (CalledProcessError "ensurepip" 1,
     <[bin_python p := File "python"]>
       (<[p ++ ["bin"] := Dir]> (<[p := Dir]> f)));
  run_argv := fun _ _ _ => SpawnFailed;
  run_shell := fun _ _ _ => SpawnFailed;
  rich_markup_ok := fun msg => negb (substring_of "[/x]" msg);
  signal_repr := fun n => "unknown signal " +:+ pretty n;
|}.

(** ** What [start] hands to the server *)

Section Launch.
Context `{Host}.

(** The environment of the child process: what was inherited, completed
    from [.env], then the two assignments of [start]. *)
Definition launch_environ (project_path : path) (kvs : list (string * string))
    (env : gmap string string) : gmap string string :=
  <["AIRFLOW__DATABASE__SQL_ALCHEMY_CONN" :=
      "sqlite:///" +:+ abspath (os_path_join (path_str project_path) "airflow.db")]>
  (<["AIRFLOW_HOME" := path_str project_path]> (setdefault_all kvs env)).

(** The environment path by convention, when [config.yaml] names none. *)
Definition default_venv (project_path : path) (d : list (string * pyval))
    : string :=
  os_path_join (path_str project_path)
    (".venv/airflow_" +:+ py_str (default PNone (dict_get "airflow_version" d))
     +:+ "_py" +:+ py_str (default PNone (dict_get "python_version" d))).

(** The shell command on a POSIX host, for the environment at [venv_path]. *)
Definition launch_command (venv_path : string) : string :=
  "source " +:+ os_path_join (os_path_join venv_path "bin") "activate"
  +:+ " && airflow standalone".

End Launch.

(** ** Vocabulary of the properties *)

(** [keeps q m]: whatever [m] does and however it ends, the file system is
    the same at [q] afterwards. *)
Definition keeps {A : Type} (q : path) (m : M A) : Prop :=
  ∀ w, fs (m w).2 !! q = fs w !! q.

(** [inv I m]: [m] maintains the property [I] of the file system, on every
    outcome. *)
Definition inv {A : Type} (I : FS → Prop) (m : M A) : Prop :=
  ∀ w, I (fs w) → I (fs (m w).2).

(** A parsed document has key [k] when it is a mapping that binds [k]. *)
Definition has_key (k : string) (doc : pyval) : bool :=
  match doc with
  | PDict d => bool_decide (is_Some (dict_get k d))
  | _ => false
  end.

(** [w] after the messages [msgs] were printed and nothing else happened. *)
Definition echoed (msgs : list string) (w : World) : World :=
  mkWorld (fs w) (environ w) (trace w ++ map EvEcho msgs).

(** The messages [msgs] get printed: nothing is printed when [verbose] is
    off, and [rich] accepts the markup of each of them otherwise. *)
Definition renders `{Host} (verbose : bool) (msgs : list string) : bool :=
  negb verbose || forallb rich_markup_ok msgs.

(** * Properties *)

(** ** Paths *)

Lemma child_not_nil p n : child p n ≠ [].
Proof. unfold child. destruct p; discriminate. Qed.

Lemma node_at_child (f : FS) p n : node_at f (child p n) = f !! child p n.
Proof. unfold node_at. pose proof (child_not_nil p n). by destruct (child p n). Qed.

Lemma parent_child p n : parent (child p n) = p.
Proof. unfold parent, child. apply removelast_last. Qed.

Lemma child_inj p a b : child p a = child p b → a = b.
Proof. unfold child. intros E. apply app_inv_head in E. congruence. Qed.

Lemma child_ne p a b : a ≠ b → child p a ≠ child p b.
Proof. intros Hab E. by apply Hab, (child_inj p). Qed.

Lemma child_ne_self p n : child p n ≠ p.
Proof.
  unfold child. intros E. apply (f_equal (@List.length string)) in E.
  rewrite length_app in E. simpl in E. lia.
Qed.

Lemma grandchild_ne_child p a n b : child (child p a) n ≠ child p b.
Proof.
  unfold child. rewrite <- app_assoc. intros E.
  apply app_inv_head in E. discriminate.
Qed.

Lemma grandchild_ne_self p a n : child (child p a) n ≠ p.
Proof.
  unfold child. intros E. apply (f_equal (@List.length string)) in E.
  rewrite !length_app in E. simpl in E. lia.
Qed.

Lemma entry_name_child p n : entry_name p (child p n) = Some n.
Proof.
  induction p as [|a p IH]; [done|]. simpl. by rewrite decide_True.
Qed.

(** An entry of the map right below [p] shows up in the listing of [p]. *)
Lemma listdir_lists (f : FS) p n x :
  f !! child p n = Some x → n ∈ listdir f p.
Proof.
  intros Hx. unfold listdir. apply list_elem_of_omap.
  exists (child p n, x). split.
  - by apply elem_of_map_to_list.
  - apply entry_name_child.
Qed.

Lemma empty_dir_lookup (f : FS) p n : listdir f p = [] → f !! child p n = None.
Proof.
  intros Hempty. destruct (f !! child p n) as [x|] eqn:E; [|done].
  apply listdir_lists in E. rewrite Hempty in E. by apply not_elem_of_nil in E.
Qed.

(** ** The monad *)

Lemma bind_Ok {A B : Type} (m : M A) (k : A → M B) w b w' :
  bind m k w = (Ok b, w') →
  ∃ a w1, m w = (Ok a, w1) ∧ k a w1 = (Ok b, w').
Proof.
  unfold bind. destruct (m w) as [[a|e] w1]; [eauto | discriminate].
Qed.

Lemma inv_bind {A B : Type} I (m : M A) (k : A → M B) :
  inv I m → (∀ a, inv I (k a)) → inv I (bind m k).
Proof.
  intros Hm Hk w HI. unfold bind. specialize (Hm w HI).
  destruct (m w) as [[a|e] w1]; simpl in *; [by apply Hk | done].
Qed.

Lemma keeps_bind {A B : Type} (q : path) (m : M A) (k : A → M B) :
  keeps q m → (∀ a, keeps q (k a)) → keeps q (bind m k).
Proof.
  intros Hm Hk w. unfold bind. specialize (Hm w).
  destruct (m w) as [[a|e] w1]; simpl in *; [by rewrite Hk | done].
Qed.

Lemma keeps_ret {A : Type} (q : path) (a : A) : keeps q (ret a).
Proof. done. Qed.

Lemma keeps_raise {A : Type} (q : path) e : keeps q (raise (A := A) e).
Proof. done. Qed.

Lemma keeps_get_fs (q : path) : keeps q get_fs.
Proof. done. Qed.

Lemma keeps_emit (q : path) e : keeps q (emit e).
Proof. done. Qed.

Lemma keeps_echo (q : path) msg : keeps q (echo msg).
Proof. done. Qed.

Lemma keeps_when (q : path) b m : keeps q m → keeps q (when b m).
Proof. by destruct b. Qed.

Lemma keeps_for_each {A : Type} (q : path) (l : list A) body :
  (∀ x, keeps q (body x)) → keeps q (for_each l body).
Proof.
  intros Hb. induction l as [|x l IH]; simpl; [done|].
  apply keeps_bind; [apply Hb | by intros _].
Qed.

Ltac keeps_prim :=
  let w := fresh "w" in
  intros w; unfold bind, get_fs, set_fs, ret, raise; simpl;
  repeat match goal with
         | |- context [match ?x with _ => _ end] => destruct x; simpl
         end;
  try done; by rewrite lookup_insert_ne.

Lemma keeps_mkdir (q p : path) : q ≠ p → keeps q (mkdir_exist_ok p).
Proof. intros Hne. unfold mkdir_exist_ok, missing_error. keeps_prim. Qed.

Lemma keeps_touch (q p : path) : q ≠ p → keeps q (touch_exist_ok p).
Proof. intros Hne. unfold touch_exist_ok, missing_error. keeps_prim. Qed.

Lemma keeps_write (q p : path) text : q ≠ p → keeps q (write_text p text).
Proof. intros Hne. unfold write_text, missing_error. keeps_prim. Qed.

Lemma keeps_read (q p : path) : keeps q (read_text p).
Proof. unfold read_text, missing_error. keeps_prim. Qed.

Lemma keeps_iterdir (q p : path) : keeps q (iterdir p).
Proof. unfold iterdir, missing_error. keeps_prim. Qed.

Lemma keeps_confirm (q : path) answer msg : keeps q (confirm_or_abort answer msg).
Proof. unfold confirm_or_abort. intros w. by destruct answer. Qed.

Lemma keeps_copy_example (q : path) from_dir dags_dir name :
  q ≠ child dags_dir name → keeps q (copy_example from_dir dags_dir name).
Proof.
  intros Hne. unfold copy_example.
  apply keeps_bind; [apply keeps_get_fs|]. intros f.
  destruct (exists_ f (child dags_dir name)); [apply keeps_ret|].
  apply keeps_bind; [apply keeps_read|]. intros text. by apply keeps_write.
Qed.

Lemma keeps_step {A : Type} (q : path) (m : M A) w r w' :
  keeps q m → m w = (r, w') → fs w' !! q = fs w !! q.
Proof. intros Hk E. specialize (Hk w). by rewrite E in Hk. Qed.

(** What the creating operations leave behind when they succeed. *)
Lemma mkdir_Ok p n w w' :
  mkdir_exist_ok (child p n) w = (Ok tt, w') → fs w' !! child p n = Some Dir.
Proof.
  unfold mkdir_exist_ok, bind, get_fs, set_fs, ret, raise.
  rewrite node_at_child, parent_child.
  destruct (fs w !! child p n) as [[]|] eqn:E; simpl; try discriminate.
  - by intros [= <-].
  - destruct (node_at (fs w) p) as [[]|]; simpl; try discriminate.
    intros [= <-]. simpl. by rewrite lookup_insert_eq.
Qed.

Lemma touch_Ok p n w w' :
  touch_exist_ok (child p n) w = (Ok tt, w') →
  fs w' !! child p n =
    match fs w !! child p n with
    | Some x => Some x
    | None => Some (File "")
    end.
Proof.
  unfold touch_exist_ok, bind, get_fs, set_fs, ret, raise.
  rewrite node_at_child, parent_child.
  destruct (fs w !! child p n) as [x|] eqn:E; simpl.
  - by intros [= <-].
  - destruct (node_at (fs w) p) as [[]|]; simpl; try discriminate.
    intros [= <-]. simpl. by rewrite lookup_insert_eq.
Qed.

Lemma write_Ok p n text w w' :
  write_text (child p n) text w = (Ok tt, w') →
  fs w' !! child p n = Some (File text).
Proof.
  unfold write_text, bind, get_fs, set_fs, ret, raise.
  rewrite node_at_child, parent_child.
  destruct (fs w !! child p n) as [[]|] eqn:E; simpl; try discriminate.
  - intros [= <-]. simpl. by rewrite lookup_insert_eq.
  - destruct (node_at (fs w) p) as [[]|]; simpl; try discriminate.
    intros [= <-]. simpl. by rewrite lookup_insert_eq.
Qed.

Lemma write_if_absent_present p n text w x :
  fs w !! child p n = Some x →
  write_if_absent (child p n) text w = (Ok tt, w).
Proof.
  intros E. unfold write_if_absent, bind, get_fs, exists_.
  by rewrite node_at_child, E.
Qed.

Lemma write_if_absent_Ok p n text w w' :
  write_if_absent (child p n) text w = (Ok tt, w') →
  fs w' !! child p n =
    match fs w !! child p n with
    | Some x => Some x
    | None => Some (File text)
    end.
Proof.
  destruct (fs w !! child p n) as [x|] eqn:E.
  - rewrite (write_if_absent_present _ _ _ _ x E). by intros [= <-].
  - unfold write_if_absent, bind, get_fs, exists_. rewrite node_at_child, E.
    simpl. apply write_Ok.
Qed.

Lemma keeps_write_if_absent (q p : path) text :
  q ≠ p → keeps q (write_if_absent p text).
Proof.
  intros Hne. unfold write_if_absent. apply keeps_bind; [apply keeps_get_fs|].
  intros f. by apply keeps_when, keeps_write.
Qed.

Ltac path_ne :=
  unfold SETTINGS_FILENAME;
  solve [ apply child_ne; discriminate
        | apply child_ne_self
        | apply not_eq_sym, child_ne_self
        | apply grandchild_ne_child
        | apply not_eq_sym, grandchild_ne_child
        | apply grandchild_ne_self
        | apply not_eq_sym, grandchild_ne_self ].

(** ** [init] *)

Section Init.
Context `{Host}.

(** The loop over the example DAGs writes below [dags/] only. *)
Lemma keeps_copy_loop (q : path) from_dir dags_dir names :
  (∀ n, q ≠ child dags_dir n) →
  keeps q (for_each names (copy_example from_dir dags_dir)).
Proof. intros Hq. apply keeps_for_each. intros n. by apply keeps_copy_example. Qed.

(** A run of [create_project] that returns went through each of its steps:
    up to the creation of [plugins/] only the project directory, the two
    directories and the copies below [dags/] were touched, and the five
    writes that follow all succeeded. *)
Lemma create_project_steps answer project_dir av pv w w' :
  create_project answer project_dir av pv w = (Ok tt, w') →
  ∃ w_plugins w_req w_touched w_ignore w_settings w_env,
    (∀ q : path,
       q ≠ project_dir → (∀ n, q ≠ child (child project_dir "dags") n) →
       q ≠ child project_dir "dags" → q ≠ child project_dir "plugins" →
       fs w_plugins !! q = fs w !! q) ∧
    fs w_plugins !! child project_dir "dags" = Some Dir ∧
    fs w_plugins !! child project_dir "plugins" = Some Dir ∧
    touch_exist_ok (child project_dir "requirements.txt") w_plugins
      = (Ok tt, w_req) ∧
    touch_exist_ok (child project_dir ".gitignore") w_req
      = (Ok tt, w_touched) ∧
    write_text (child project_dir ".gitignore") gitignore_text w_touched
      = (Ok tt, w_ignore) ∧
    write_if_absent (child project_dir SETTINGS_FILENAME)
      (settings_text av pv) w_ignore = (Ok tt, w_settings) ∧
    write_if_absent (child project_dir ".env") (env_text project_dir)
      w_settings = (Ok tt, w_env) ∧
    fs w' = fs w_env.
Proof.
  unfold create_project. intros Hrun.
  apply bind_Ok in Hrun as ([] & w1 & S1 & Hrun).
  apply bind_Ok in Hrun as (entries & w2 & S2 & Hrun).
  apply bind_Ok in Hrun as ([] & w3 & S3 & Hrun).
  apply bind_Ok in Hrun as ([] & w4 & S4 & Hrun).
  apply bind_Ok in Hrun as (names & w5 & S5 & Hrun).
  apply bind_Ok in Hrun as ([] & w6 & S6 & Hrun).
  apply bind_Ok in Hrun as ([] & w7 & S7 & Hrun).
  apply bind_Ok in Hrun as ([] & w8 & S8 & Hrun).
  apply bind_Ok in Hrun as ([] & w9 & S9 & Hrun).
  apply bind_Ok in Hrun as ([] & w10 & S10 & Hrun).
  apply bind_Ok in Hrun as ([] & w11 & S11 & Hrun).
  apply bind_Ok in Hrun as ([] & w12 & S12 & Hrun).
  injection Hrun as <-.
  assert (K3 : ∀ q : path, fs w3 !! q = fs w2 !! q).
  { intros q. eapply keeps_step; [|exact S3].
    apply keeps_when, keeps_confirm. }
  exists w7, w8, w9, w10, w11, w12. split_and!; try done.
  - intros q Hpd Hloop Hdags Hplugins.
    rewrite (keeps_step q _ _ _ _ (keeps_mkdir q _ Hplugins) S7).
    rewrite (keeps_step q _ _ _ _ (keeps_copy_loop q _ _ _ Hloop) S6).
    rewrite (keeps_step q _ _ _ _ (keeps_iterdir q _) S5).
    rewrite (keeps_step q _ _ _ _ (keeps_mkdir q _ Hdags) S4).
    rewrite K3.
    rewrite (keeps_step q _ _ _ _ (keeps_iterdir q _) S2).
    by rewrite (keeps_step q _ _ _ _ (keeps_mkdir q _ Hpd) S1).
  - set (dags := child project_dir "dags").
    assert (Hplugins : dags ≠ child project_dir "plugins") by path_ne.
    assert (Hloop : ∀ n, dags ≠ child dags n)
      by (intros n; apply not_eq_sym, child_ne_self).
    rewrite (keeps_step dags _ _ _ _ (keeps_mkdir dags _ Hplugins) S7).
    rewrite (keeps_step dags _ _ _ _ (keeps_copy_loop dags _ _ _ Hloop) S6).
    rewrite (keeps_step dags _ _ _ _ (keeps_iterdir dags _) S5).
    exact (mkdir_Ok _ _ _ _ S4).
  - exact (mkdir_Ok _ _ _ _ S7).
Qed.
Lemma touch_keeps (q p : path) w r w' :
  touch_exist_ok p w = (r, w') → q ≠ p → fs w' !! q = fs w !! q.
Proof. intros E Hne. exact (keeps_step q _ _ _ _ (keeps_touch q p Hne) E). Qed.

Lemma write_keeps (q p : path) text w r w' :
  write_text p text w = (r, w') → q ≠ p → fs w' !! q = fs w !! q.
Proof. intros E Hne. exact (keeps_step q _ _ _ _ (keeps_write q p text Hne) E). Qed.

Lemma write_if_absent_keeps (q p : path) text w r w' :
  write_if_absent p text w = (r, w') → q ≠ p → fs w' !! q = fs w !! q.
Proof.
  intros E Hne. exact (keeps_step q _ _ _ _ (keeps_write_if_absent q p text Hne) E).
Qed.

(** C1. When [init] is run on a target directory that has no entries (it is
    empty, or it does not exist yet and is created by the run) and returns
    without an error, the project directory holds all six artifacts:
    the directories [dags/] and [plugins/] and the files [settings.yaml],
    [.env], [.gitignore] and [requirements.txt], the first three with the
    rendered contents and the last one empty. *)
Theorem init_produces_the_six_artifacts
    answer project_dir airflow_version python_version w w' :
  listdir (fs w) project_dir = [] →
  init answer project_dir airflow_version python_version w = (Ok tt, w') →
  fs w' !! child project_dir "dags" = Some Dir ∧
  fs w' !! child project_dir "plugins" = Some Dir ∧
  fs w' !! child project_dir "settings.yaml"
    = Some (File (settings_text airflow_version python_version)) ∧
  fs w' !! child project_dir ".env" = Some (File (env_text project_dir)) ∧
  fs w' !! child project_dir ".gitignore" = Some (File gitignore_text) ∧
  fs w' !! child project_dir "requirements.txt" = Some (File "").
Proof.
  intros Hempty Hrun. unfold init in Hrun.
  apply create_project_steps in Hrun
    as (w1 & w2 & w3 & w4 & w5 & w6 & Hbefore & Hdags & Hplugins
        & Ereq & Etouch & Eignore & Esettings & Eenv & ->).
  unfold SETTINGS_FILENAME in Esettings.
  assert (Hfresh : ∀ n, n ≠ "dags" → n ≠ "plugins" →
                        fs w1 !! child project_dir n = None).
  { intros n Hd Hp. rewrite Hbefore.
    - by apply empty_dir_lookup.
    - apply child_ne_self.
    - intros m. apply not_eq_sym, grandchild_ne_child.
    - by apply child_ne.
    - by apply child_ne. }
  split_and!.
  - rewrite (write_if_absent_keeps _ _ _ _ _ _ Eenv) by path_ne.
    rewrite (write_if_absent_keeps _ _ _ _ _ _ Esettings) by path_ne.
    rewrite (write_keeps _ _ _ _ _ _ Eignore) by path_ne.
    rewrite (touch_keeps _ _ _ _ _ Etouch) by path_ne.
    by rewrite (touch_keeps _ _ _ _ _ Ereq) by path_ne.
  - rewrite (write_if_absent_keeps _ _ _ _ _ _ Eenv) by path_ne.
    rewrite (write_if_absent_keeps _ _ _ _ _ _ Esettings) by path_ne.
    rewrite (write_keeps _ _ _ _ _ _ Eignore) by path_ne.
    rewrite (touch_keeps _ _ _ _ _ Etouch) by path_ne.
    by rewrite (touch_keeps _ _ _ _ _ Ereq) by path_ne.
  - rewrite (write_if_absent_keeps _ _ _ _ _ _ Eenv) by path_ne.
    rewrite (write_if_absent_Ok _ _ _ _ _ Esettings).
    rewrite (write_keeps _ _ _ _ _ _ Eignore) by path_ne.
    rewrite (touch_keeps _ _ _ _ _ Etouch) by path_ne.
    rewrite (touch_keeps _ _ _ _ _ Ereq) by path_ne.
    by rewrite Hfresh.
  - rewrite (write_if_absent_Ok _ _ _ _ _ Eenv).
    rewrite (write_if_absent_keeps _ _ _ _ _ _ Esettings) by path_ne.
    rewrite (write_keeps _ _ _ _ _ _ Eignore) by path_ne.
    rewrite (touch_keeps _ _ _ _ _ Etouch) by path_ne.
    rewrite (touch_keeps _ _ _ _ _ Ereq) by path_ne.
    by rewrite Hfresh.
  - rewrite (write_if_absent_keeps _ _ _ _ _ _ Eenv) by path_ne.
    rewrite (write_if_absent_keeps _ _ _ _ _ _ Esettings) by path_ne.
    exact (write_Ok _ _ _ _ _ Eignore).
  - rewrite (write_if_absent_keeps _ _ _ _ _ _ Eenv) by path_ne.
    rewrite (write_if_absent_keeps _ _ _ _ _ _ Esettings) by path_ne.
    rewrite (write_keeps _ _ _ _ _ _ Eignore) by path_ne.
    rewrite (touch_keeps _ _ _ _ _ Etouch) by path_ne.
    rewrite (touch_Ok _ _ _ _ Ereq).
    by rewrite Hfresh.
Qed.

Lemma keeps_both {A : Type} (p q : path) (x y : node) (m : M A) :
  keeps p m → keeps q m →
  inv (λ f, f !! p = Some x ∧ f !! q = Some y) m.
Proof. intros Hp Hq w [??]. by rewrite Hp, Hq. Qed.

(** C3. When [settings.yaml] and [.env] are already in the project
    directory, a run of [init] leaves both exactly as they were, however the
    run ends (normally, declined at the prompt, or with an error). *)
Theorem init_keeps_settings_and_env
    answer project_dir airflow_version python_version w settings env :
  fs w !! child project_dir "settings.yaml" = Some settings →
  fs w !! child project_dir ".env" = Some env →
  let w' := (init answer project_dir airflow_version python_version w).2 in
  fs w' !! child project_dir "settings.yaml" = Some settings ∧
  fs w' !! child project_dir ".env" = Some env.
Proof.
  intros Hs He. simpl.
  set (S := child project_dir "settings.yaml").
  set (E := child project_dir ".env").
  cut (inv (λ f, f !! S = Some settings ∧ f !! E = Some env)
           (init answer project_dir airflow_version python_version)).
  { intros Hinv. by apply Hinv. }
  unfold init, create_project, SETTINGS_FILENAME. fold S E.
  apply inv_bind; [apply keeps_both; apply keeps_mkdir; path_ne | intros _].
  apply inv_bind; [apply keeps_both; apply keeps_iterdir | intros entries].
  apply inv_bind; [apply keeps_both; apply keeps_when, keeps_confirm | intros _].
  apply inv_bind; [apply keeps_both; apply keeps_mkdir; path_ne | intros _].
  apply inv_bind; [apply keeps_both; apply keeps_iterdir | intros names].
  apply inv_bind;
    [apply keeps_both; apply keeps_copy_loop; intros n; path_ne | intros _].
  apply inv_bind; [apply keeps_both; apply keeps_mkdir; path_ne | intros _].
  apply inv_bind; [apply keeps_both; apply keeps_touch; path_ne | intros _].
  apply inv_bind; [apply keeps_both; apply keeps_touch; path_ne | intros _].
  apply inv_bind; [apply keeps_both; apply keeps_write; path_ne | intros _].
  apply inv_bind; [| intros _].
  { intros w0 [Hs0 He0]. by rewrite (write_if_absent_present _ _ _ _ _ Hs0). }
  apply inv_bind; [| intros _].
  { intros w0 [Hs0 He0]. by rewrite (write_if_absent_present _ _ _ _ _ He0). }
  apply keeps_both; apply keeps_echo.
Qed.

(** C9 (as amended). A run of [init] that returns without error ends with
    [.gitignore] holding exactly the ten lines of the fixed ignore list,
    whatever was in the project directory before: there is no test for an
    existing [.gitignore], on a first run or on a re-run. *)
Theorem init_rewrites_gitignore
    answer project_dir airflow_version python_version w w' :
  init answer project_dir airflow_version python_version w = (Ok tt, w') →
  fs w' !! child project_dir ".gitignore"
  = Some (File (unlines [".git"; "airflow.cfg"; "airflow.db";
                         "airflow-webserver.pid"; "logs"; ".DS_Store";
                         "__pycache__/"; ".env"; ".venv"; ".airflowctl"])).
Proof.
  intros Hrun. unfold init in Hrun.
  apply create_project_steps in Hrun
    as (w1 & w2 & w3 & w4 & w5 & w6 & _ & _ & _
        & _ & _ & Eignore & Esettings & Eenv & ->).
  rewrite (write_if_absent_keeps _ _ _ _ _ _ Eenv) by path_ne.
  rewrite (write_if_absent_keeps _ _ _ _ _ _ Esettings) by path_ne.
  exact (write_Ok _ _ _ _ _ Eignore).
Qed.

End Init.

Lemma init_produces_the_six_artifacts_witness :
  let w' := (init (H := sample_host) true proj "2.7.0" "3.10"
               (world_of fresh_fs)).2 in
  listdir fresh_fs proj = [] ∧
  fs w' !! child proj "dags" = Some Dir ∧
  fs w' !! child proj "plugins" = Some Dir ∧
  fs w' !! child proj "settings.yaml" = Some (File (settings_text "2.7.0" "3.10")) ∧
  fs w' !! child proj ".env" = Some (File (env_text proj)) ∧
  fs w' !! child proj ".gitignore" = Some (File gitignore_text) ∧
  fs w' !! child proj "requirements.txt" = Some (File "").
Proof.
  split; [vm_compute; reflexivity|].
  apply (init_produces_the_six_artifacts (H := sample_host)
           true proj "2.7.0" "3.10" (world_of fresh_fs)).
  - vm_compute. reflexivity.
  - vm_compute. reflexivity.
Defined.

Lemma init_keeps_settings_and_env_witness :
  let w' := (init (H := sample_host) true proj "2.8.0" "3.11"
               (world_of edited_fs)).2 in
  fs w' !! child proj "settings.yaml" = Some (File "airflow_version: 2.5.0") ∧
  fs w' !! child proj ".env" = Some (File "AIRFLOW_HOME=/elsewhere").
Proof.
  apply (init_keeps_settings_and_env (H := sample_host)
           true proj "2.8.0" "3.11" (world_of edited_fs)).
  - vm_compute. reflexivity.
  - vm_compute. reflexivity.
Defined.

Lemma init_rewrites_gitignore_witness :
  let w' := (init (H := sample_host) true proj "2.8.0" "3.11"
               (world_of edited_fs)).2 in
  edited_fs !! child proj ".gitignore" = Some (File "secrets/") ∧
  fs w' !! child proj ".gitignore"
  = Some (File (unlines [".git"; "airflow.cfg"; "airflow.db";
                         "airflow-webserver.pid"; "logs"; ".DS_Store";
                         "__pycache__/"; ".env"; ".venv"; ".airflowctl"])).
Proof.
  split; [vm_compute; reflexivity|].
  apply (init_rewrites_gitignore (H := sample_host)
           true proj "2.8.0" "3.11" (world_of edited_fs)).
  vm_compute. reflexivity.
Defined.

(** C9, where it fails: a re-run that the user declines at the prompt ends
    before the ignore list is written, and [.gitignore] keeps what it
    held. *)
Lemma init_declined_keeps_gitignore :
  let run := init (H := sample_host) false proj "2.8.0" "3.11"
               (world_of edited_fs) in
  run.1 = Raise TyperAbort ∧
  fs run.2 !! child proj ".gitignore" = Some (File "secrets/") ∧
  fs run.2 !! child proj ".gitignore" ≠ Some (File gitignore_text).
Proof. vm_compute. split_and!; [reflexivity | reflexivity | discriminate]. Qed.

(** ** [build], [install_airflow] and [start] *)

Lemma echoed_nil w : echoed [] w = w.
Proof. destruct w. unfold echoed. simpl. by rewrite app_nil_r. Qed.

Section Commands.
Context `{Host}.

(** Asking a document for a key it does not have never returns: the look-up
    ends the command with status 1, having printed at most a message. *)
Lemma get_conf_missing key doc w :
  has_key key doc = false →
  ∃ e msgs, _get_conf_or_raise key doc w = (Raise e, echoed msgs w)
            ∧ exit_code e = 1%Z.
Proof.
  intros Hlack.
  assert (Hquiet : ∀ e : exn, ∃ e' msgs,
            (Raise (A := pyval) (Exc e), w) = (Raise e', echoed msgs w)
            ∧ exit_code e' = 1%Z).
  { intros e. exists (Exc e), []. by rewrite echoed_nil. }
  assert (Hloud : ∃ e' msgs,
            (Raise (A := pyval) (TyperExit 1),
             mkWorld (fs w) (environ w)
               (trace w ++ [EvEcho ("Key '" +:+ key +:+ "' not found in settings file.")]))
            = (Raise e', echoed msgs w) ∧ exit_code e' = 1%Z).
  { by exists (TyperExit 1), ["Key '" +:+ key +:+ "' not found in settings file."]. }
  unfold _get_conf_or_raise, bind.
  destruct doc as [| | | |s|items|d]; simpl in *; try apply Hquiet.
  - destruct (substring_of key s); simpl; [apply Hquiet | apply Hloud].
  - destruct (existsb (is_str key) items); simpl; [apply Hquiet | apply Hloud].
  - rewrite Hlack. simpl. apply Hloud.
Qed.

Lemma get_conf_present key doc w :
  has_key key doc = true →
  ∃ v, _get_conf_or_raise key doc w = (Ok v, w).
Proof.
  destruct doc as [| | | | | |d]; simpl; try discriminate.
  intros Hhas. apply bool_decide_eq_true in Hhas as [v Hv]. exists v.
  unfold _get_conf_or_raise, bind. simpl.
  rewrite bool_decide_eq_true_2 by eauto. simpl. by rewrite Hv.
Qed.

(** [build] stops at the first of the two keys the settings lack. *)
Lemma build_fails_without_key project_path settings_file venv_path recreate w
    text doc :
  node_at (fs w) settings_file = Some (File text) →
  yaml_safe_load text = Some doc →
  has_key "airflow_version" doc = false ∨ has_key "python_version" doc = false →
  ∃ e msgs,
    build project_path settings_file venv_path recreate w
      = (Raise e, echoed msgs w)
    ∧ exit_code e = 1%Z.
Proof.
  intros Hfile Hdoc Hlack.
  unfold build, read_text, safe_load, when, bind, get_fs. simpl.
  destruct (exists_ (fs w) (child project_path SETTINGS_FILENAME)); simpl.
  - rewrite Hfile. simpl. rewrite Hdoc. simpl.
    destruct (has_key "airflow_version" doc) eqn:Ha.
    + destruct Hlack as [|Hp]; [done|].
      destruct (get_conf_present _ _ w Ha) as [v Ev]. rewrite Ev.
      destruct (get_conf_missing _ _ w Hp) as (e & msgs & Ee & Hcode).
      rewrite Ee. eauto.
    + destruct (get_conf_missing _ _ w Ha) as (e & msgs & Ee & Hcode).
      rewrite Ee. eauto.
  - by exists (TyperExit 1),
      ["Settings file '" +:+ path_str settings_file +:+ "' not found."].
Qed.

(** C4 (as amended, for [build]). When the document [build] reads from the
    settings file lacks [airflow_version] or lacks [python_version], [build]
    ends with status 1; until then it has only printed messages: the file
    system and the environment are as before and no process was started. *)
Theorem build_requires_both_versions
    project_path settings_file venv_path recreate w text doc :
  node_at (fs w) settings_file = Some (File text) →
  yaml_safe_load text = Some doc →
  has_key "airflow_version" doc = false ∨ has_key "python_version" doc = false →
  ∃ e msgs,
    build project_path settings_file venv_path recreate w
      = (Raise e, echoed msgs w)
    ∧ exit_code e = 1%Z.
Proof. apply build_fails_without_key. Qed.

(** C6. When the settings file exists but its document has no
    [airflow_version], [build] ends with a status other than 0 and all it
    has done is print: [verify_or_create_venv] was not reached, so nothing
    was removed, no virtual environment was created and no process ran. *)
Theorem build_without_airflow_version_makes_no_venv
    project_path settings_file venv_path recreate w text doc :
  node_at (fs w) settings_file = Some (File text) →
  yaml_safe_load text = Some doc →
  has_key "airflow_version" doc = false →
  ∃ e w',
    build project_path settings_file venv_path recreate w = (Raise e, w')
    ∧ exit_code e ≠ 0%Z
    ∧ fs w' = fs w
    ∧ environ w' = environ w
    ∧ ∃ msgs, trace w' = trace w ++ map EvEcho msgs.
Proof.
  intros Hfile Hdoc Hlack.
  destruct (build_fails_without_key project_path settings_file venv_path
              recreate w text doc Hfile Hdoc (or_introl Hlack))
    as (e & msgs & Hrun & Hcode).
  exists e, (echoed msgs w). split_and!; [done | lia | done | done |].
  by exists msgs.
Qed.

(** C7. When there is no [config.yaml] at the project path, [start] ends
    with [typer.Exit(1)] after printing that the file was not found, and
    that message is all that happened: no child process was started. *)
Theorem start_without_config project_path w :
  exists_ (fs w) (child project_path "config.yaml") = false →
  start project_path w
  = (Raise (TyperExit 1),
     echoed ["Config file '" +:+ path_str (child project_path "config.yaml")
             +:+ "' not found."] w)
  ∧ exit_code (TyperExit 1) = 1%Z.
Proof.
  intros Hno. split; [|done].
  unfold start, when, bind, get_fs. simpl. by rewrite Hno.
Qed.

(** The version probe of [is_airflow_installed], when it exits with 0. *)
Lemma is_airflow_installed_true venv_path w out after :
  exists_ (fs w) (bin_python venv_path) = true →
  run_argv (version_probe venv_path) (environ w) (fs w) = Exited 0 out after →
  is_airflow_installed venv_path w
  = (Ok true,
     mkWorld after (environ w) (trace w ++ [EvRun (version_probe venv_path)])).
Proof.
  intros Hpy Hprobe.
  unfold is_airflow_installed, try_except, subprocess_run_argv, emit,
    get_environ, set_fs, bind, get_fs.
  simpl. rewrite Hpy. simpl. by rewrite Hprobe.
Qed.







(** [print] where [rich] accepts the markup, and where it does not. *)
Lemma rich_print_renders msg w :
  rich_markup_ok msg = true → rich_print msg w = echo msg w.
Proof. intros Hok. unfold rich_print, echo. by rewrite Hok. Qed.

Lemma rich_print_refuses msg w :
  rich_markup_ok msg = false → rich_print msg w = (Raise (Exc MarkupError), w).
Proof. intros Hno. unfold rich_print. by rewrite Hno. Qed.

(** The handler of [get_latest_airflow_version]. *)
Lemma fallback_when_rendered verbose e w :
  renders verbose [retrieval_error_message e; defaulting_message] = true →
  ((when verbose
      (rich_print (retrieval_error_message e) ;;;
       rich_print defaulting_message) ;;;
    ret (PStr "2.7.0")) w).1 = Ok (PStr "2.7.0").
Proof.
  unfold renders. destruct verbose; simpl; [|done].
  intros Hok. apply andb_prop in Hok as [Hfirst Hok].
  apply andb_prop in Hok as [Hsecond _].
  unfold when, bind. rewrite (rich_print_renders _ _ Hfirst).
  unfold echo, emit at 1. rewrite (rich_print_renders _ _ Hsecond).
  done.
Qed.

(** C5 (as amended). [get_latest_airflow_version] returns the fixed
    fallback when the request raises [httpx.RequestError] and when the
    decoded object has no [info] or its [info] has no [version]; it returns
    the version the index reports when that field is there; in all these
    cases it does not raise, provided [rich] accepts the markup of what the
    function prints about the case when it is verbose. *)
Theorem get_latest_airflow_version_cases verbose w :
  (∀ why,
     renders verbose [retrieval_error_message (RequestError why);
                      defaulting_message] = true →
     (get_latest_airflow_version verbose (RequestFailed why) w).1
     = Ok (PStr "2.7.0")) ∧
  (∀ d, dict_get "info" d = None →
     renders verbose [retrieval_error_message (KeyError "info");
                      defaulting_message] = true →
     (get_latest_airflow_version verbose (Replied (Decodes (PDict d))) w).1
     = Ok (PStr "2.7.0")) ∧
  (∀ d i, dict_get "info" d = Some (PDict i) → dict_get "version" i = None →
     renders verbose [retrieval_error_message (KeyError "version");
                      defaulting_message] = true →
     (get_latest_airflow_version verbose (Replied (Decodes (PDict d))) w).1
     = Ok (PStr "2.7.0")) ∧
  (∀ d i v, dict_get "info" d = Some (PDict i) → dict_get "version" i = Some v →
     renders verbose [detected_message v] = true →
     (get_latest_airflow_version verbose (Replied (Decodes (PDict d))) w).1
     = Ok v).
Proof.
  split_and!.
  - intros why Hok. exact (fallback_when_rendered _ _ w Hok).
  - intros d Hd Hok.
    unfold get_latest_airflow_version, try_except, client_get, response_json,
      subscript, bind at 1 2 3, ret.
    rewrite Hd. exact (fallback_when_rendered _ _ w Hok).
  - intros d i Hd Hi Hok.
    unfold get_latest_airflow_version, try_except, client_get, response_json,
      subscript, bind at 1 2 3 4, ret.
    rewrite Hd, Hi. exact (fallback_when_rendered _ _ w Hok).
  - intros d i v Hd Hi Hok.
    unfold get_latest_airflow_version, try_except, client_get, response_json,
      subscript, bind at 1 2 3 4, ret.
    rewrite Hd, Hi. unfold renders in Hok.
    destruct verbose; simpl in *; [|done].
    apply andb_prop in Hok as [Hok _].
    unfold when, bind. by rewrite (rich_print_renders _ _ Hok).
Qed.

End Commands.

(** ** The properties at work on the sample project *)

Lemma build_requires_both_versions_witness :
  ∃ e msgs,
    build (H := sample_host) proj (child proj SETTINGS_FILENAME) venv false
      (world_of unversioned_fs)
      = (Raise e, echoed msgs (world_of unversioned_fs))
    ∧ exit_code e = 1%Z.
Proof.
  apply (build_requires_both_versions (H := sample_host) proj
           (child proj SETTINGS_FILENAME) venv false (world_of unversioned_fs)
           "python_version: 3" (PDict [("python_version", PInt 3)])).
  - vm_compute. reflexivity.
  - vm_compute. reflexivity.
  - left. vm_compute. reflexivity.
Defined.

Lemma build_without_airflow_version_makes_no_venv_witness :
  ∃ e w',
    build (H := sample_host) proj (child proj SETTINGS_FILENAME) venv true
      (world_of unversioned_fs) = (Raise e, w')
    ∧ exit_code e ≠ 0%Z
    ∧ fs w' = fs (world_of unversioned_fs)
    ∧ environ w' = environ (world_of unversioned_fs)
    ∧ ∃ msgs, trace w' = trace (world_of unversioned_fs) ++ map EvEcho msgs.
Proof.
  apply (build_without_airflow_version_makes_no_venv (H := sample_host) proj
           (child proj SETTINGS_FILENAME) venv true (world_of unversioned_fs)
           "python_version: 3" (PDict [("python_version", PInt 3)])).
  - vm_compute. reflexivity.
  - vm_compute. reflexivity.
  - vm_compute. reflexivity.
Defined.

Lemma start_without_config_witness :
  exists_ initial_fs (child proj "config.yaml") = false ∧
  start (H := sample_host) proj (world_of initial_fs)
  = (Raise (TyperExit 1),
     echoed ["Config file '/home/proj/config.yaml' not found."]
       (world_of initial_fs)).
Proof.
  split; [vm_compute; reflexivity|].
  apply (start_without_config (H := sample_host) proj (world_of initial_fs)).
  vm_compute. reflexivity.
Defined.




Lemma get_latest_airflow_version_cases_witness :
  (get_latest_airflow_version (H := sample_host) true
     (RequestFailed "timed out") (world_of fresh_fs)).1 = Ok (PStr "2.7.0") ∧
  (get_latest_airflow_version (H := sample_host) true
     (Replied (Decodes (PDict [("info", PDict [("version", PStr "2.9.1")])])))
     (world_of fresh_fs)).1 = Ok (PStr "2.9.1").
Proof.
  destruct (get_latest_airflow_version_cases (H := sample_host) true
              (world_of fresh_fs)) as (Hfail & _ & _ & Hfound).
  split.
  - apply Hfail. vm_compute. reflexivity.
  - apply (Hfound _ [("version", PStr "2.9.1")]).
    + reflexivity.
    + reflexivity.
    + vm_compute. reflexivity.
Defined.

(** C4, where it fails: [start] reads a [config.yaml] with no
    [airflow_version], does not fail, and launches the server from a
    directory named after the missing value. *)
Lemma start_proceeds_without_airflow_version :
  let doc := PDict [("python_version", PInt 3)] in
  node_at launch_fs (child proj "config.yaml") = Some (File "python_version: 3") ∧
  yaml_safe_load (Host := sample_host) "python_version: 3" = Some doc ∧
  has_key "airflow_version" doc = false ∧
  (start (H := sample_host) proj (world_of launch_fs)).1 = Ok tt ∧
  trace (start (H := sample_host) proj (world_of launch_fs)).2
  = [EvShell "source /home/proj/.venv/airflow_None_py3/bin/activate && airflow standalone"].
Proof. vm_compute. split_and!; reflexivity. Qed.

(** C5, where it fails: a body that is not JSON, or not text, makes the
    resolver raise; an empty version in the index is returned as it is; and
    a version whose text [rich] refuses as markup makes the verbose resolver
    raise where it prints it. *)
Lemma get_latest_airflow_version_can_raise :
  get_latest_airflow_version (H := sample_host) true (Replied NotJSON)
    (world_of fresh_fs)
  = (Raise (Exc JSONDecodeError), world_of fresh_fs) ∧
  get_latest_airflow_version (H := sample_host) true (Replied NotText)
    (world_of fresh_fs)
  = (Raise (Exc UnicodeDecodeError), world_of fresh_fs) ∧
  get_latest_airflow_version (H := sample_host) false
    (Replied (Decodes (PDict [("info", PDict [("version", PStr "")])])))
    (world_of fresh_fs)
  = (Ok (PStr ""), world_of fresh_fs) ∧
  rich_markup_ok (Host := sample_host) (detected_message (H := sample_host) (PStr "[/x]")) = false ∧
  get_latest_airflow_version (H := sample_host) true
    (Replied (Decodes (PDict [("info", PDict [("version", PStr "[/x]")])])))
    (world_of fresh_fs)
  = (Raise (Exc MarkupError), world_of fresh_fs) ∧
  ¬ (∀ reply, ∃ s, s ≠ "" ∧
       (get_latest_airflow_version (H := sample_host) true reply
          (world_of fresh_fs)).1 = Ok (PStr s)).
Proof.
  split_and!; [reflexivity | reflexivity | reflexivity | reflexivity
              | reflexivity |].
  intros Hall. destruct (Hall (Replied NotJSON)) as (s & _ & Hs). discriminate Hs.
Qed.

(** ** Further facts about [build] *)

Section BuildGuard.
Context `{Host}.

(** The existence test of [build] is made on [project_path / settings.yaml],
    whatever file [--settings-file] names: when that one is there and the
    named file is not, [open] raises and nothing has been printed. *)
Lemma build_guard_passes_on_project_settings
    project_path settings_file venv_path recreate w :
  exists_ (fs w) (child project_path SETTINGS_FILENAME) = true →
  node_at (fs w) settings_file = None →
  build project_path settings_file venv_path recreate w
  = (Raise (missing_error (fs w) settings_file), w).
Proof.
  intros Hproject Hnone.
  unfold build, read_text, when, bind, get_fs. simpl.
  rewrite Hproject. simpl. by rewrite Hnone.
Qed.

(** And when [project_path / settings.yaml] is not there, the named file is
    reported as not found, be it there or not. *)
Lemma build_guard_fails_on_project_settings
    project_path settings_file venv_path recreate w :
  exists_ (fs w) (child project_path SETTINGS_FILENAME) = false →
  build project_path settings_file venv_path recreate w
  = (Raise (TyperExit 1),
     echoed ["Settings file '" +:+ path_str settings_file +:+ "' not found."] w).
Proof.
  intros Hproject. unfold build, when, bind, get_fs. simpl. by rewrite Hproject.
Qed.

(** C8. When the file named by [--settings-file] does not exist, [build]
    ends with exit status 1 and the file reported as not found, before any
    configuration is read: the file system and the environment are as they
    were and nothing but the report was printed. Either the test on line 233
    fails, and the message naming the file is printed before
    [typer.Exit(1)]; or it passes, because it looks at
    [project_path / settings.yaml], and [open] raises the error of the
    missing file, which ends the interpreter with status 1. *)
Theorem build_without_settings_file
    project_path settings_file venv_path recreate w :
  node_at (fs w) settings_file = None →
  ∃ e msgs,
    build project_path settings_file venv_path recreate w
    = (Raise e, echoed msgs w)
    ∧ exit_code e = 1%Z
    ∧ ((e = TyperExit 1
        ∧ msgs = ["Settings file '" +:+ path_str settings_file +:+ "' not found."])
       ∨ (e = missing_error (fs w) settings_file ∧ msgs = [])).
Proof.
  intros Hnone.
  destruct (exists_ (fs w) (child project_path SETTINGS_FILENAME)) eqn:Hproject.
  - exists (missing_error (fs w) settings_file), []. split_and!.
    + rewrite echoed_nil. by apply build_guard_passes_on_project_settings.
    + unfold missing_error. by destruct (node_at (fs w) (parent settings_file)) as [[]|].
    + by right.
  - eexists _, _. split_and!.
    + by apply build_guard_fails_on_project_settings.
    + done.
    + by left.
Qed.

End BuildGuard.

Lemma build_without_settings_file_witness :
  let other := child proj "other.yaml" in
  ∃ e msgs,
    build (H := sample_host) proj other venv false (world_of initial_fs)
    = (Raise e, echoed msgs (world_of initial_fs))
    ∧ exit_code e = 1%Z
    ∧ ((e = TyperExit 1
        ∧ msgs = ["Settings file '" +:+ path_str other +:+ "' not found."])
       ∨ (e = missing_error (fs (world_of initial_fs)) other ∧ msgs = [])).
Proof.
  apply (build_without_settings_file (H := sample_host) proj
           (child proj "other.yaml") venv false (world_of initial_fs)).
  vm_compute. reflexivity.
Defined.

(** The two ways it ends, on the sample project: [/home/proj/settings.yaml]
    is there and the named file is not, so [open] raises; in a directory
    without [settings.yaml] the message is printed. *)
Example build_without_settings_file_both_ways :
  let other := child proj "other.yaml" in
  let run := build (H := sample_host) proj other venv false
               (world_of initial_fs) in
  let run' := build (H := sample_host) ["home"] (child ["home"] "other.yaml")
                venv false (world_of fresh_fs) in
  exists_ initial_fs other = false ∧
  exists_ initial_fs (child proj SETTINGS_FILENAME) = true ∧
  run.1 = Raise (Exc FileNotFoundError) ∧
  trace run.2 = [] ∧
  run'.1 = Raise (TyperExit 1) ∧
  trace run'.2 = [EvEcho "Settings file '/home/other.yaml' not found."].
Proof. split_and!; vm_compute; reflexivity. Qed.

(** A second [build] of the sample project: the probe, two messages, and no
    shell command. *)
Example second_build_installs_nothing :
  build (H := sample_host) proj (child proj SETTINGS_FILENAME) venv false
    (world_of built_fs)
  = (Ok tt,
     mkWorld built_fs ∅
       [EvRun ["/home/proj/.venv/bin/python"; "-m"; "airflow"; "version"];
        EvEcho "[bold yellow]Apache Airflow 2.7.0 is already installed. Skipping installation.[/bold yellow]";
        EvEcho "Airflow project built successfully."]).
Proof. vm_compute. reflexivity. Qed.

(** A re-run of [init] that the user declines at the prompt stops there. *)
Example declined_rerun_changes_nothing :
  init (H := sample_host) false proj "2.8.0" "3.11" (world_of edited_fs)
  = (Raise TyperAbort,
     mkWorld edited_fs ∅
       [EvConfirm "Directory /home/proj is not empty. Continue?"]).
Proof. vm_compute. reflexivity. Qed.

(** * Further properties of the three commands *)

(** ** Listings and removal *)

Lemma entry_name_Some (p k : path) n : entry_name p k = Some n → k = child p n.
Proof.
  revert k. induction p as [|a p IH]; intros k.
  - destruct k as [|b [|c k]]; simpl; try discriminate. by intros [= ->].
  - destruct k as [|b k]; simpl; [discriminate|].
    destruct (decide (a = b)) as [->|]; [|discriminate].
    intros Hn. unfold child. simpl. f_equal. by apply IH.
Qed.

Lemma listdir_elem (f : FS) (p : path) n :
  n ∈ listdir f p ↔ is_Some (f !! child p n).
Proof.
  split.
  - unfold listdir. intros Hn. apply list_elem_of_omap in Hn as ([k x] & Hkx & Hname).
    simpl in Hname. apply entry_name_Some in Hname as ->.
    apply elem_of_map_to_list in Hkx. eauto.
  - intros [x Hx]. by eapply listdir_lists.
Qed.

Lemma listdir_nil (f : FS) (p : path) :
  listdir f p = [] ↔ ∀ n, f !! child p n = None.
Proof.
  split.
  - intros Hnil n. by apply empty_dir_lookup.
  - intros Hnone. destruct (listdir f p) as [|n l] eqn:E; [done|].
    assert (Hn : n ∈ listdir f p) by (rewrite E; apply list_elem_of_here).
    apply listdir_elem in Hn as [x Hx]. by rewrite Hnone in Hx.
Qed.


(** ** Look-ups, the version probe and the installer *)

Section Installer.
Context `{Host}.

(** X1. [_get_conf_or_raise] returns exactly when the settings are a
    mapping that binds the key: it then returns the bound value and leaves
    the world as it was. A list or a string that merely contains the key
    does not make it return. *)
Theorem get_conf_returns_iff key doc v w w' :
  _get_conf_or_raise key doc w = (Ok v, w')
  ↔ (∃ d, doc = PDict d ∧ dict_get key d = Some v) ∧ w' = w.
Proof.
  split.
  - unfold _get_conf_or_raise, py_contains, subscript, when, echo, emit, bind,
      ret, raise.
    destruct doc as [| | | |s|items|d]; simpl; try discriminate.
    + destruct (substring_of key s); simpl; discriminate.
    + destruct (existsb (is_str key) items); simpl; discriminate.
    + destruct (dict_get key d) as [x|] eqn:E; simpl.
      * intros [= -> ->]. split; [|done]. by exists d.
      * discriminate.
  - intros [(d & -> & Hv) ->]. unfold _get_conf_or_raise, bind. simpl.
    rewrite bool_decide_eq_true_2 by eauto. simpl. by rewrite Hv.
Qed.

(** X2. [is_airflow_installed] answers [True] exactly when the interpreter
    of the environment exists and its version command exits with 0; the
    only trace of the call is that command. *)
Theorem is_airflow_installed_iff venv_path w w' :
  is_airflow_installed venv_path w = (Ok true, w')
  ↔ exists_ (fs w) (bin_python venv_path) = true
    ∧ ∃ out after,
        run_argv (version_probe venv_path) (environ w) (fs w)
          = Exited 0 out after
        ∧ w' = mkWorld after (environ w)
                 (trace w ++ [EvRun (version_probe venv_path)]).
Proof.
  split.
  - unfold is_airflow_installed, try_except, subprocess_run_argv, emit,
      get_environ, set_fs, bind, get_fs, ret, raise.
    simpl.
    destruct (exists_ (fs w) (bin_python venv_path)); simpl; [|discriminate].
    destruct (run_argv _ _ _) as [status out after|] eqn:E; simpl;
      [|discriminate].
    destruct (bool_decide (status = 0%Z)) eqn:Hs; simpl; [|discriminate].
    apply bool_decide_eq_true in Hs as ->.
    intros [= <-]. split; [done|]. by exists out, after.
  - intros (Hpy & out & after & Hprobe & ->).
    exact (is_airflow_installed_true _ _ _ _ Hpy Hprobe).
Qed.

Lemma probe_failure_is_false venv_path w status out after :
  exists_ (fs w) (bin_python venv_path) = true →
  run_argv (version_probe venv_path) (environ w) (fs w)
    = Exited status out after →
  status ≠ 0%Z →
  is_airflow_installed venv_path w
  = (Ok false,
     mkWorld after (environ w) (trace w ++ [EvRun (version_probe venv_path)])).
Proof.
  intros Hpy Hprobe Hstatus.
  unfold is_airflow_installed, try_except, subprocess_run_argv, emit,
    get_environ, set_fs, bind, get_fs, ret, raise.
  simpl. rewrite Hpy. simpl. rewrite Hprobe. simpl.
  by rewrite bool_decide_eq_false_2.
Qed.

(** X3. Whatever status the version command exits with,
    [is_airflow_installed] returns: the answer is whether the status is 0,
    and a [CalledProcessError] never leaves the function. *)
Theorem is_airflow_installed_answers venv_path w status out after :
  exists_ (fs w) (bin_python venv_path) = true →
  run_argv (version_probe venv_path) (environ w) (fs w)
    = Exited status out after →
  is_airflow_installed venv_path w
  = (Ok (bool_decide (status = 0%Z)),
     mkWorld after (environ w) (trace w ++ [EvRun (version_probe venv_path)])).
Proof.
  intros Hpy Hprobe. destruct (decide (status = 0%Z)) as [->|Hne].
  - exact (is_airflow_installed_true _ _ _ _ Hpy Hprobe).
  - rewrite bool_decide_eq_false_2 by done.
    exact (probe_failure_is_false _ _ _ _ _ Hpy Hprobe Hne).
Qed.




(** X6. When the install command exits with a status other than 0,
    [install_airflow] prints an error and raises [SystemExit()]: the
    program ends with status 0 although nothing was installed. *)
Theorem install_airflow_failure_exits_with_zero
    version venv_path url extras requirements w status out probed
    status' out' left :
  exists_ (fs w) (bin_python venv_path) = true →
  run_argv (version_probe venv_path) (environ w) (fs w)
    = Exited status out probed →
  status ≠ 0%Z →
  exists_ probed (bin_python venv_path) = true →
  run_shell (install_command version venv_path url extras requirements)
    (environ w) probed = Exited status' out' left →
  status' ≠ 0%Z →
  install_airflow version venv_path url extras requirements false w
  = (Raise SystemExit,
     mkWorld left (environ w)
       (trace w ++
        [EvRun (version_probe venv_path);
         EvShell (install_command version venv_path url extras requirements);
         EvEcho "[bold red]Error occurred during installation.[/bold red]"]))
  ∧ exit_code SystemExit = 0%Z.
Proof.
  intros Hpy Hprobe Hstatus Hpy' Hinstall Hstatus'. split; [|done].
  unfold install_airflow. unfold bind at 1.
  rewrite (probe_failure_is_false _ _ _ _ _ Hpy Hprobe Hstatus).
  unfold try_except, subprocess_run_shell, when, echo, emit, get_environ,
    set_fs, bind, get_fs, ret, raise.
  simpl. rewrite Hpy'. simpl. rewrite Hinstall. simpl.
  rewrite bool_decide_eq_false_2 by done. simpl.
  by rewrite <- !app_assoc.
Qed.

End Installer.

(** ** The virtual environment *)

Section Venv.
Context `{Host}.







End Venv.

(** ** [start] *)

Section Start.
Context `{Host}.

(** X11. With a [config.yaml] but no [.env] at the project path, [start]
    ends with [typer.Exit(1)] after one message; the configuration has not
    been read and no process was started. *)
Theorem start_without_env_file project_path w :
  exists_ (fs w) (child project_path "config.yaml") = true →
  exists_ (fs w) (child project_path ".env") = false →
  start project_path w
  = (Raise (TyperExit 1), echoed [".env file not found."] w).
Proof.
  intros Hconfig Henv. unfold start, when, echo, emit, bind, get_fs, ret, raise.
  simpl. rewrite Hconfig. simpl. by rewrite Henv.
Qed.

(** Up to the choice of the environment, [start] only reads the two files
    and extends the process environment. *)
Lemma start_reaches_launch project_path w text dotenv d kvs chosen :
  node_at (fs w) (child project_path "config.yaml") = Some (File text) →
  node_at (fs w) (child project_path ".env") = Some (File dotenv) →
  yaml_safe_load text = Some (PDict d) →
  dotenv_values dotenv = inr kvs →
  default (PStr (default_venv project_path d)) (dict_get "venv_path" d)
    = PStr chosen →
  start project_path w
  = (activate_cmd <- activate_virtualenv (abspath chosen) ;;
     try_except
       (subprocess_run_shell (activate_cmd +:+ " && airflow standalone"))
       is_called_process_error
       (fun e =>
          echo ("Error starting Airflow: " +:+ exn_str e) ;;;
          raise (TyperExit 1)))
      (mkWorld (fs w) (launch_environ project_path kvs (environ w)) (trace w)).
Proof.
  intros Hconfig Henv Hyaml Hdot Hchosen.
  assert (Hc : exists_ (fs w) (child project_path "config.yaml") = true)
    by (unfold exists_; by rewrite Hconfig).
  assert (He : exists_ (fs w) (child project_path ".env") = true)
    by (unfold exists_; by rewrite Henv).
  unfold start.
  unfold bind at 1, get_fs at 1. unfold bind at 1, when at 1. rewrite Hc. simpl.
  unfold bind at 1, get_fs at 1. unfold bind at 1, when at 1. rewrite He. simpl.
  unfold bind at 1, read_text, bind at 1, get_fs at 1. rewrite Hconfig. simpl.
  unfold bind at 1, safe_load. rewrite Hyaml. simpl.
  unfold bind at 1, source_env_file, bind at 1, get_fs at 1. rewrite Henv, Hdot.
  simpl.
  unfold bind at 1, setenv, bind at 1. simpl.
  unfold bind at 1. simpl. unfold bind at 1. simpl.
  unfold bind at 1. simpl.
  unfold default_venv in Hchosen.
  destruct (dict_get "airflow_version" d) as [av|];
    destruct (dict_get "python_version" d) as [pv|];
    destruct (dict_get "venv_path" d) as [vp|]; simpl in *;
    try (injection Hchosen as <-); subst;
    unfold launch_environ; reflexivity.
Qed.

Lemma launch_command_eq venv_path :
  ("source " +:+ os_path_join (os_path_join venv_path "bin") "activate")
  +:+ " && airflow standalone" = launch_command venv_path.
Proof. reflexivity. Qed.

(** On a POSIX host, once the environment is chosen, [start] is the one
    shell command. *)
Lemma start_runs_launch_command project_path w text dotenv d kvs chosen :
  node_at (fs w) (child project_path "config.yaml") = Some (File text) →
  node_at (fs w) (child project_path ".env") = Some (File dotenv) →
  yaml_safe_load text = Some (PDict d) →
  dotenv_values dotenv = inr kvs →
  default (PStr (default_venv project_path d)) (dict_get "venv_path" d)
    = PStr chosen →
  os_name = "posix" →
  start project_path w
  = try_except
      (subprocess_run_shell (launch_command (abspath chosen)))
      is_called_process_error
      (fun e =>
         echo ("Error starting Airflow: " +:+ exn_str e) ;;;
         raise (TyperExit 1))
      (mkWorld (fs w) (launch_environ project_path kvs (environ w)) (trace w)).
Proof.
  intros Hconfig Henv Hyaml Hdot Hchosen Hos.
  rewrite (start_reaches_launch _ _ _ _ _ _ _ Hconfig Henv Hyaml Hdot Hchosen).
  unfold activate_virtualenv. rewrite Hos.
  rewrite bool_decide_eq_true_2 by done.
  unfold bind at 1, ret. by rewrite launch_command_eq.
Qed.

Lemma try_shell_Ok cmd w out after :
  run_shell cmd (environ w) (fs w) = Exited 0 out after →
  try_except (subprocess_run_shell cmd) is_called_process_error
    (fun e => echo ("Error starting Airflow: " +:+ exn_str e) ;;;
              raise (TyperExit 1)) w
  = (Ok tt, mkWorld after (environ w) (trace w ++ [EvShell cmd])).
Proof.
  intros Hrun.
  unfold try_except, subprocess_run_shell, emit, get_environ, set_fs, bind,
    get_fs, ret, raise.
  simpl. by rewrite Hrun.
Qed.

Lemma try_shell_failed cmd w status out after :
  run_shell cmd (environ w) (fs w) = Exited status out after →
  status ≠ 0%Z →
  try_except (subprocess_run_shell cmd) is_called_process_error
    (fun e => echo ("Error starting Airflow: " +:+ exn_str e) ;;;
              raise (TyperExit 1)) w
  = (Raise (TyperExit 1),
     mkWorld after (environ w)
       (trace w ++
        [EvShell cmd;
         EvEcho ("Error starting Airflow: "
                 +:+ exn_str (CalledProcessError cmd status))])).
Proof.
  intros Hrun Hstatus.
  unfold try_except, subprocess_run_shell, echo, emit, get_environ, set_fs,
    bind, get_fs, ret, raise.
  simpl. rewrite Hrun. simpl. rewrite bool_decide_eq_false_2 by done. simpl.
  by rewrite <- app_assoc.
Qed.

(** X12. When [config.yaml] names a [venv_path], [start] launches the
    server from that environment, whether or not the two version keys are
    there, and the child gets an environment in which [AIRFLOW_HOME] is the
    project path, whatever [.env] or the inherited environment said. *)
Theorem start_launches_from_configured_venv
    project_path w text dotenv d kvs venv_path out after :
  node_at (fs w) (child project_path "config.yaml") = Some (File text) →
  node_at (fs w) (child project_path ".env") = Some (File dotenv) →
  yaml_safe_load text = Some (PDict d) →
  dotenv_values dotenv = inr kvs →
  dict_get "venv_path" d = Some (PStr venv_path) →
  os_name = "posix" →
  run_shell (launch_command (abspath venv_path))
    (launch_environ project_path kvs (environ w)) (fs w) = Exited 0 out after →
  start project_path w
  = (Ok tt,
     mkWorld after (launch_environ project_path kvs (environ w))
       (trace w ++ [EvShell (launch_command (abspath venv_path))]))
  ∧ launch_environ project_path kvs (environ w) !! "AIRFLOW_HOME"
    = Some (path_str project_path).
Proof.
  intros Hconfig Henv Hyaml Hdot Hvenv Hos Hrun. split.
  - rewrite (start_runs_launch_command _ _ _ _ _ _ venv_path
               Hconfig Henv Hyaml Hdot); [|by rewrite Hvenv | done].
    by rewrite (try_shell_Ok _ (mkWorld (fs w) (launch_environ project_path kvs (environ w)) (trace w))
                  _ _ Hrun).
  - unfold launch_environ. rewrite lookup_insert_ne by done.
    by rewrite lookup_insert_eq.
Qed.

(** X13. When [config.yaml] names no [venv_path], the environment is
    looked for at [<project>/.venv/airflow_<airflow_version>_py<python_version>];
    a version the file does not give appears there as [str(None)]. *)
Theorem start_launches_from_conventional_venv
    project_path w text dotenv d kvs out after :
  node_at (fs w) (child project_path "config.yaml") = Some (File text) →
  node_at (fs w) (child project_path ".env") = Some (File dotenv) →
  yaml_safe_load text = Some (PDict d) →
  dotenv_values dotenv = inr kvs →
  dict_get "venv_path" d = None →
  os_name = "posix" →
  run_shell (launch_command (abspath (default_venv project_path d)))
    (launch_environ project_path kvs (environ w)) (fs w) = Exited 0 out after →
  start project_path w
  = (Ok tt,
     mkWorld after (launch_environ project_path kvs (environ w))
       (trace w ++
        [EvShell (launch_command (abspath (default_venv project_path d)))])).
Proof.
  intros Hconfig Henv Hyaml Hdot Hvenv Hos Hrun.
  rewrite (start_runs_launch_command _ _ _ _ _ _ (default_venv project_path d)
             Hconfig Henv Hyaml Hdot); [|by rewrite Hvenv | done].
  by rewrite (try_shell_Ok _ (mkWorld (fs w) (launch_environ project_path kvs (environ w)) (trace w))
                _ _ Hrun).
Qed.

(** X14. When the launch command exits with a positive status, [start]
    reports it and ends with [typer.Exit(1)]. *)
Theorem start_reports_failed_launch
    project_path w text dotenv d kvs chosen status out after :
  node_at (fs w) (child project_path "config.yaml") = Some (File text) →
  node_at (fs w) (child project_path ".env") = Some (File dotenv) →
  yaml_safe_load text = Some (PDict d) →
  dotenv_values dotenv = inr kvs →
  default (PStr (default_venv project_path d)) (dict_get "venv_path" d)
    = PStr chosen →
  os_name = "posix" →
  run_shell (launch_command (abspath chosen))
    (launch_environ project_path kvs (environ w)) (fs w)
    = Exited status out after →
  (0 < status)%Z →
  start project_path w
  = (Raise (TyperExit 1),
     mkWorld after (launch_environ project_path kvs (environ w))
       (trace w ++
        [EvShell (launch_command (abspath chosen));
         EvEcho ("Error starting Airflow: Command '"
                 +:+ launch_command (abspath chosen)
                 +:+ "' returned non-zero exit status " +:+ pretty status
                 +:+ ".")])).
Proof.
  intros Hconfig Henv Hyaml Hdot Hchosen Hos Hrun Hstatus.
  rewrite (start_runs_launch_command _ _ _ _ _ _ chosen
             Hconfig Henv Hyaml Hdot Hchosen Hos).
  rewrite (try_shell_failed _ (mkWorld (fs w) (launch_environ project_path kvs (environ w)) (trace w))
             _ _ _ Hrun) by lia.
  unfold exn_str. by rewrite bool_decide_eq_false_2 by lia.
Qed.

(** X15. On a host that is neither POSIX nor Windows [start] starts no
    process: it ends with [typer.Exit(1)], after it has already extended
    the process environment. *)
Theorem start_on_unsupported_host project_path w text dotenv d kvs chosen :
  node_at (fs w) (child project_path "config.yaml") = Some (File text) →
  node_at (fs w) (child project_path ".env") = Some (File dotenv) →
  yaml_safe_load text = Some (PDict d) →
  dotenv_values dotenv = inr kvs →
  default (PStr (default_venv project_path d)) (dict_get "venv_path" d)
    = PStr chosen →
  os_name ≠ "posix" →
  os_name ≠ "nt" →
  start project_path w
  = (Raise (TyperExit 1),
     mkWorld (fs w) (launch_environ project_path kvs (environ w))
       (trace w ++ [EvEcho "Unsupported operating system."])).
Proof.
  intros Hconfig Henv Hyaml Hdot Hchosen Hposix Hnt.
  rewrite (start_reaches_launch _ _ _ _ _ _ _ Hconfig Henv Hyaml Hdot Hchosen).
  unfold activate_virtualenv.
  rewrite !bool_decide_eq_false_2 by done.
  reflexivity.
Qed.

(** X16. A [config.yaml] whose document is not a mapping (an empty file
    loads as [None]) makes [start] end with an [AttributeError] nobody
    catches, after [.env] was loaded and before any process is started. *)
Theorem start_with_non_mapping_config project_path w text dotenv doc kvs :
  node_at (fs w) (child project_path "config.yaml") = Some (File text) →
  node_at (fs w) (child project_path ".env") = Some (File dotenv) →
  yaml_safe_load text = Some doc →
  (∀ d, doc ≠ PDict d) →
  dotenv_values dotenv = inr kvs →
  start project_path w
  = (Raise (Exc AttributeError),
     mkWorld (fs w) (launch_environ project_path kvs (environ w)) (trace w)).
Proof.
  intros Hconfig Henv Hyaml Hdoc Hdot.
  assert (Hc : exists_ (fs w) (child project_path "config.yaml") = true)
    by (unfold exists_; by rewrite Hconfig).
  assert (He : exists_ (fs w) (child project_path ".env") = true)
    by (unfold exists_; by rewrite Henv).
  unfold start.
  unfold bind at 1, get_fs at 1. unfold bind at 1, when at 1. rewrite Hc. simpl.
  unfold bind at 1, get_fs at 1. unfold bind at 1, when at 1. rewrite He. simpl.
  unfold bind at 1, read_text, bind at 1, get_fs at 1. rewrite Hconfig. simpl.
  unfold bind at 1, safe_load. rewrite Hyaml. simpl.
  unfold bind at 1, source_env_file, bind at 1, get_fs at 1. rewrite Henv, Hdot.
  simpl.
  unfold bind at 1, setenv, bind at 1. simpl.
  unfold bind at 1. simpl. unfold bind at 1. simpl.
  destruct doc; try reflexivity. by destruct (Hdoc bindings).
Qed.

End Start.

(** ** A first [build] and the version resolver *)


Section FirstBuild.
Context `{Host}.


(** X18. A request error or a missing key never leaves
    [get_latest_airflow_version]: whatever the reply and the verbosity, and
    whatever the function prints, the exception it ends with, if any, is
    neither an [httpx.RequestError] nor a [KeyError]. *)
Theorem get_latest_airflow_version_contains_request_errors
    verbose reply w e :
  (get_latest_airflow_version verbose reply w).1 = Raise (Exc e) →
  is_request_or_key_error e = false.
Proof.
  assert (Hprint : ∀ msg w0 e0 w1,
            rich_print msg w0 = (Raise (Exc e0), w1) → e0 = MarkupError).
  { intros msg w0 e0 w1. unfold rich_print, emit, raise.
    destruct (rich_markup_ok msg); [discriminate | by intros [= <-]]. }
  assert (Hhandler : ∀ e1 w0,
            ((when verbose
                (rich_print (retrieval_error_message e1) ;;;
                 rich_print defaulting_message) ;;;
              ret (PStr "2.7.0")) w0).1 = Raise (Exc e) →
            is_request_or_key_error e = false).
  { intros e1 w0. unfold when, bind, ret. destruct verbose; [|discriminate].
    destruct (rich_print (retrieval_error_message e1) w0) as [[[]|e2] w1] eqn:E1;
      simpl.
    - destruct (rich_print defaulting_message w1) as [[[]|e3] w2] eqn:E2;
        simpl; [discriminate|].
      intros [= ->]. by rewrite (Hprint _ _ _ _ E2).
    - intros [= ->]. by rewrite (Hprint _ _ _ _ E1). }
  unfold get_latest_airflow_version, try_except.
  destruct reply as [why|[data| |]].
  - exact (Hhandler _ w).
  - unfold client_get, response_json, subscript, bind at 1 2 3, ret.
    destruct data as [| | | | | |d]; simpl; try (by intros [= <-]).
    destruct (dict_get "info" d) as [info|]; [|exact (Hhandler _ w)].
    unfold bind at 1.
    destruct info as [| | | | | |i]; simpl; try (by intros [= <-]).
    destruct (dict_get "version" i) as [v|]; [|exact (Hhandler _ w)].
    unfold when, bind, ret. destruct verbose; [|discriminate].
    destruct (rich_print (detected_message v) w) as [[[]|e2] w1] eqn:E1;
      simpl; [discriminate|].
    destruct e2 as [| | |e3]; simpl; try discriminate.
    rewrite (Hprint _ _ _ _ E1). simpl. by intros [= <-].
  - simpl. by intros [= <-].
  - simpl. by intros [= <-].
Qed.

End FirstBuild.

(** ** More about [init] *)

Lemma inv_step {A : Type} (I : FS → Prop) (m : M A) w r w' :
  inv I m → m w = (r, w') → I (fs w) → I (fs w').
Proof. intros Hinv E HI. specialize (Hinv w HI). by rewrite E in Hinv. Qed.

Lemma keeps_one {A : Type} (q : path) (x : node) (m : M A) :
  keeps q m → inv (λ f, f !! q = Some x) m.
Proof. intros Hk w HI. by rewrite Hk. Qed.

Lemma inv_for_each {A : Type} (I : FS → Prop) (l : list A) body :
  (∀ x, inv I (body x)) → inv I (for_each l body).
Proof.
  intros Hb. induction l as [|x l IH]; simpl; [by intros w|].
  apply inv_bind; [apply Hb | by intros _].
Qed.

(** [mkdir] and the copy of an example never replace what exists. *)
Lemma mkdir_keeps_existing (p q : path) (x : node) :
  inv (λ f, f !! q = Some x) (mkdir_exist_ok p).
Proof.
  intros w HI. unfold mkdir_exist_ok, missing_error, bind, get_fs, set_fs, ret, raise.
  simpl. destruct (node_at (fs w) p) as [[]|] eqn:Ep; simpl; try done.
  destruct (node_at (fs w) (parent p)) as [[]|]; simpl; try done.
  rewrite lookup_insert_ne; [done|]. intros ->.
  unfold node_at in Ep. destruct q; [done|]. by rewrite HI in Ep.
Qed.

Lemma copy_example_keeps_existing from_dir dags_dir name (q : path) (x : node) :
  inv (λ f, f !! q = Some x) (copy_example from_dir dags_dir name).
Proof.
  destruct (decide (q = child dags_dir name)) as [->|Hne].
  - intros w HI. unfold copy_example, bind, get_fs, exists_. simpl.
    by rewrite node_at_child, HI.
  - by apply keeps_one, keeps_copy_example.
Qed.

Lemma mkdir_noop (p : path) w :
  node_at (fs w) p = Some Dir → mkdir_exist_ok p w = (Ok tt, w).
Proof. intros Hp. unfold mkdir_exist_ok, bind, get_fs. simpl. by rewrite Hp. Qed.

Lemma touch_noop (p : path) w :
  is_Some (node_at (fs w) p) → touch_exist_ok p w = (Ok tt, w).
Proof.
  intros [x Hp]. unfold touch_exist_ok, bind, get_fs. simpl. by rewrite Hp.
Qed.

Lemma write_same p n text w :
  fs w !! child p n = Some (File text) →
  write_text (child p n) text w = (Ok tt, w).
Proof.
  intros Hp. unfold write_text, bind, get_fs, set_fs. simpl.
  rewrite node_at_child, Hp. simpl. rewrite insert_id by done. by destruct w.
Qed.

Lemma iterdir_dir (p : path) w :
  node_at (fs w) p = Some Dir → iterdir p w = (Ok (listdir (fs w) p), w).
Proof. intros Hp. unfold iterdir, bind, get_fs. simpl. by rewrite Hp. Qed.

Lemma copy_loop_skips from_dir dags_dir names w :
  (∀ n, n ∈ names → is_Some (fs w !! child dags_dir n)) →
  for_each names (copy_example from_dir dags_dir) w = (Ok tt, w).
Proof.
  induction names as [|m names IH]; intros Hall; simpl; [done|].
  unfold bind.
  assert (Hm : copy_example from_dir dags_dir m w = (Ok tt, w)).
  { destruct (Hall m) as [x Hx]; [apply list_elem_of_here|].
    unfold copy_example, bind, get_fs, exists_. simpl.
    by rewrite node_at_child, Hx. }
  rewrite Hm. apply IH. intros n Hn. apply Hall. by apply list_elem_of_further.
Qed.

Lemma copy_loop_copies from_dir dags_dir n text names :
  ∀ w w',
    for_each names (copy_example from_dir dags_dir) w = (Ok tt, w') →
    fs w !! child dags_dir n = Some (File text)
    ∨ (fs w !! child dags_dir n = None
       ∧ fs w !! child from_dir n = Some (File text)
       ∧ n ∈ names) →
    fs w' !! child dags_dir n = Some (File text).
Proof.
  induction names as [|m names IH]; intros w w' Hrun Hcase; simpl in Hrun.
  - injection Hrun as <-. destruct Hcase as [|(_ & _ & Hin)]; [done|].
    by apply not_elem_of_nil in Hin.
  - apply bind_Ok in Hrun as ([] & w1 & Hm & Hrest).
    apply (IH w1 w' Hrest).
    destruct Hcase as [Hthere|(Hnone & Hfrom & Hin)].
    + left. exact (inv_step _ _ _ _ _ (copy_example_keeps_existing _ _ _ _ _)
                     Hm Hthere).
    + destruct (decide (m = n)) as [->|Hne].
      * left. revert Hm.
        unfold copy_example, read_text, bind, get_fs, exists_. simpl.
        rewrite node_at_child, Hnone. simpl.
        rewrite node_at_child, Hfrom. simpl. apply write_Ok.
      * right. split_and!.
        -- rewrite (keeps_step _ _ _ _ _
                      (keeps_copy_example _ from_dir dags_dir m
                         (child_ne dags_dir n m (not_eq_sym Hne))) Hm).
           done.
        -- exact (inv_step _ _ _ _ _ (copy_example_keeps_existing _ _ _ _ _)
                    Hm Hfrom).
        -- apply elem_of_cons in Hin as [->|Hin]; [done|exact Hin].
Qed.

Lemma bind_cong {A B : Type} (m : M A) (k1 k2 : A → M B) w :
  (∀ a w1, m w = (Ok a, w1) → k1 a w1 = k2 a w1) →
  bind m k1 w = bind m k2 w.
Proof.
  intros Hk. unfold bind. destruct (m w) as [[a|e] w1]; [by apply Hk | done].
Qed.

Section InitMore.
Context `{Host}.

(** X19. On a target with no entries [init] does not consult the user: the
    run is the same whatever the answer to the prompt would be. *)
Theorem init_asks_nothing_on_empty_target
    project_dir airflow_version python_version w :
  listdir (fs w) project_dir = [] →
  init true project_dir airflow_version python_version w
  = init false project_dir airflow_version python_version w.
Proof.
  intros Hempty. unfold init, create_project.
  apply bind_cong. intros [] w1 E1.
  assert (Hempty1 : listdir (fs w1) project_dir = []).
  { apply listdir_nil. intros n.
    rewrite (keeps_step _ _ _ _ _
               (keeps_mkdir (child project_dir n) project_dir
                  (child_ne_self _ _)) E1).
    by apply empty_dir_lookup. }
  apply bind_cong. intros entries w2 E2.
  assert (entries = []) as ->.
  { revert E2. unfold iterdir, bind, get_fs. simpl.
    destruct (node_at (fs w1) project_dir) as [[]|]; simpl; try discriminate.
    intros [= <- <-]. exact Hempty1. }
  rewrite bool_decide_eq_false_2 by (intros Hne; by apply Hne).
  reflexivity.
Qed.

(** X20. A re-run that the user declines changes nothing: on a project
    directory with entries, [init] asks, and on a "no" it stops with
    [typer.Abort] before touching the file system. *)
Theorem init_declined_changes_nothing
    project_dir airflow_version python_version w :
  node_at (fs w) project_dir = Some Dir →
  listdir (fs w) project_dir ≠ [] →
  init false project_dir airflow_version python_version w
  = (Raise TyperAbort,
     mkWorld (fs w) (environ w)
       (trace w ++ [EvConfirm ("Directory " +:+ path_str project_dir
                               +:+ " is not empty. Continue?")])).
Proof.
  intros Hdir Hentries. unfold init, create_project.
  unfold bind at 1. rewrite (mkdir_noop _ _ Hdir).
  unfold bind at 1. rewrite (iterdir_dir _ _ Hdir).
  unfold bind at 1. rewrite bool_decide_eq_true_2 by done.
  reflexivity.
Qed.

(** X21. [init] never replaces a file that is already in [dags/], bundled
    example of the same name or not, however the run ends. *)
Theorem init_keeps_existing_dags
    answer project_dir airflow_version python_version w name x :
  fs w !! child (child project_dir "dags") name = Some x →
  fs (init answer project_dir airflow_version python_version w).2
    !! child (child project_dir "dags") name = Some x.
Proof.
  intros Hx.
  set (q := child (child project_dir "dags") name).
  cut (inv (λ f, f !! q = Some x)
           (init answer project_dir airflow_version python_version)).
  { intros Hinv. by apply Hinv. }
  unfold init, create_project.
  apply inv_bind; [apply mkdir_keeps_existing | intros _].
  apply inv_bind; [apply keeps_one, keeps_iterdir | intros entries].
  apply inv_bind; [apply keeps_one, keeps_when, keeps_confirm | intros _].
  apply inv_bind; [apply mkdir_keeps_existing | intros _].
  apply inv_bind; [apply keeps_one, keeps_iterdir | intros names].
  apply inv_bind;
    [apply inv_for_each; intros m; apply copy_example_keeps_existing | intros _].
  apply inv_bind; [apply mkdir_keeps_existing | intros _].
  apply inv_bind; [apply keeps_one, keeps_touch; path_ne | intros _].
  apply inv_bind; [apply keeps_one, keeps_touch; path_ne | intros _].
  apply inv_bind; [apply keeps_one, keeps_write; path_ne | intros _].
  apply inv_bind; [apply keeps_one, keeps_write_if_absent; path_ne | intros _].
  apply inv_bind; [apply keeps_one, keeps_write_if_absent; path_ne | intros _].
  apply keeps_one, keeps_echo.
Qed.

(** X22. A run of [init] that returns has copied every bundled example DAG
    whose name was free in [dags/]: the file is there with the text of the
    bundled one. *)
Theorem init_copies_bundled_example
    answer project_dir airflow_version python_version w w' name text :
  init answer project_dir airflow_version python_version w = (Ok tt, w') →
  fs w !! child (child package_dir "dags") name = Some (File text) →
  fs w !! child (child project_dir "dags") name = None →
  fs w' !! child (child project_dir "dags") name = Some (File text).
Proof.
  intros Hrun Hfrom Hfree. unfold init, create_project in Hrun.
  set (dags := child project_dir "dags") in *.
  set (from := child package_dir "dags") in *.
  apply bind_Ok in Hrun as ([] & w1 & S1 & Hrun).
  apply bind_Ok in Hrun as (entries & w2 & S2 & Hrun).
  apply bind_Ok in Hrun as ([] & w3 & S3 & Hrun).
  apply bind_Ok in Hrun as ([] & w4 & S4 & Hrun).
  apply bind_Ok in Hrun as (names & w5 & S5 & Hrun).
  apply bind_Ok in Hrun as ([] & w6 & S6 & Hrun).
  apply bind_Ok in Hrun as ([] & w7 & S7 & Hrun).
  apply bind_Ok in Hrun as ([] & w8 & S8 & Hrun).
  apply bind_Ok in Hrun as ([] & w9 & S9 & Hrun).
  apply bind_Ok in Hrun as ([] & w10 & S10 & Hrun).
  apply bind_Ok in Hrun as ([] & w11 & S11 & Hrun).
  apply bind_Ok in Hrun as ([] & w12 & S12 & Hrun).
  injection Hrun as <-. simpl.
  (* after the loop nothing writes below dags/ *)
  rewrite (write_if_absent_keeps _ _ _ _ _ _ S12) by path_ne.
  rewrite (write_if_absent_keeps _ _ _ _ _ _ S11) by path_ne.
  rewrite (write_keeps _ _ _ _ _ _ S10) by path_ne.
  rewrite (touch_keeps _ _ _ _ _ S9) by path_ne.
  rewrite (touch_keeps _ _ _ _ _ S8) by path_ne.
  rewrite (keeps_step _ _ _ _ _
             (keeps_mkdir (child dags name) _ (grandchild_ne_child _ _ _ _)) S7).
  (* the state in which the loop starts *)
  assert (Hfrom4 : fs w4 !! child from name = Some (File text)).
  { apply (inv_step _ _ _ _ _ (mkdir_keeps_existing _ _ _) S4).
    apply (inv_step _ _ _ _ _
             (keeps_one _ _ _ (keeps_when _ _ _ (keeps_confirm _ _ _))) S3).
    apply (inv_step _ _ _ _ _ (keeps_one _ _ _ (keeps_iterdir _ _)) S2).
    by apply (inv_step _ _ _ _ _ (mkdir_keeps_existing _ _ _) S1). }
  assert (Hfree4 : fs w4 !! child dags name = None).
  { rewrite (keeps_step _ _ _ _ _
               (keeps_mkdir (child dags name) _ (child_ne_self _ _)) S4).
    rewrite (keeps_step _ _ _ _ _
               (keeps_when (child dags name) _ _ (keeps_confirm _ _ _)) S3).
    rewrite (keeps_step _ _ _ _ _ (keeps_iterdir (child dags name) _) S2).
    rewrite (keeps_step _ _ _ _ _
               (keeps_mkdir (child dags name) _ (grandchild_ne_self _ _ _)) S1).
    done. }
  assert (names = listdir (fs w4) from ∧ w5 = w4) as [-> ->].
  { revert S5. unfold iterdir, bind, get_fs. simpl.
    destruct (node_at (fs w4) from) as [[]|]; simpl; try discriminate.
    by intros [= <- <-]. }
  apply (copy_loop_copies from dags name text _ _ _ S6).
  right. split_and!; [done | done |]. by eapply listdir_lists.
Qed.

(** X23. Running [init] again on a project where everything is in place
    leaves the file system exactly as it is: the directories are there,
    the examples are skipped, [settings.yaml] and [.env] are kept and
    [.gitignore] is rewritten with the text it already has. *)
Theorem init_again_changes_nothing
    project_dir airflow_version python_version w :
  node_at (fs w) project_dir = Some Dir →
  fs w !! child project_dir "dags" = Some Dir →
  fs w !! child project_dir "plugins" = Some Dir →
  is_Some (fs w !! child project_dir "requirements.txt") →
  fs w !! child project_dir ".gitignore" = Some (File gitignore_text) →
  is_Some (fs w !! child project_dir "settings.yaml") →
  is_Some (fs w !! child project_dir ".env") →
  node_at (fs w) (child package_dir "dags") = Some Dir →
  (∀ n, is_Some (fs w !! child (child package_dir "dags") n) →
        is_Some (fs w !! child (child project_dir "dags") n)) →
  init true project_dir airflow_version python_version w
  = (Ok tt,
     mkWorld (fs w) (environ w)
       (trace w ++
        [EvConfirm ("Directory " +:+ path_str project_dir
                    +:+ " is not empty. Continue?");
         EvEcho ("Airflow project initialized in " +:+ path_str project_dir)])).
Proof.
  intros Hdir Hdags Hplugins [r Hreq] Hignore [s Hsettings] [e Henv] Hfrom Hcopied.
  assert (Hentries : listdir (fs w) project_dir ≠ []).
  { intros Hnil. apply (empty_dir_lookup _ _ "dags") in Hnil.
    by rewrite Hdags in Hnil. }
  unfold init, create_project.
  unfold bind at 1. rewrite (mkdir_noop _ _ Hdir).
  unfold bind at 1. rewrite (iterdir_dir _ _ Hdir).
  unfold bind at 1. rewrite bool_decide_eq_true_2 by done.
  unfold when, confirm_or_abort, emit, bind at 1, ret. simpl.
  set (w1 := mkWorld (fs w) (environ w) _).
  unfold bind at 1. rewrite (mkdir_noop _ w1) by (by rewrite node_at_child).
  unfold bind at 1. rewrite (iterdir_dir _ w1) by done.
  unfold bind at 1. rewrite (copy_loop_skips _ _ _ w1)
    by (intros n Hn; apply Hcopied; by apply listdir_elem).
  unfold bind at 1. rewrite (mkdir_noop _ w1) by (by rewrite node_at_child).
  unfold bind at 1. rewrite (touch_noop _ w1)
    by (rewrite node_at_child; simpl; eauto).
  unfold bind at 1. rewrite (touch_noop _ w1)
    by (rewrite node_at_child; simpl; eauto).
  unfold bind at 1. rewrite (write_same _ _ _ w1) by done.
  unfold bind at 1.
  rewrite (write_if_absent_present _ _ _ w1 s) by done.
  unfold bind at 1.
  rewrite (write_if_absent_present _ _ _ w1 e) by done.
  unfold echo, emit, w1. simpl. by rewrite <- app_assoc.
Qed.

End InitMore.

(** ** The further properties at work on the sample project *)

Lemma run_pair {A : Type} (m : M A) w a :
  (m w).1 = Ok a → m w = (Ok a, (m w).2).
Proof. destruct (m w) as [r w']. simpl. by intros ->. Qed.

Lemma is_airflow_installed_answers_witness :
  is_airflow_installed (H := installing_host) venv (world_of built_fs)
  = (Ok (bool_decide (1 = 0)%Z),
     mkWorld built_fs (environ (world_of built_fs))
       (trace (world_of built_fs) ++ [EvRun (version_probe venv)])).
Proof.
  apply (is_airflow_installed_answers (H := installing_host) venv
           (world_of built_fs) 1%Z "" built_fs).
  - vm_compute. reflexivity.
  - reflexivity.
Defined.



Lemma install_airflow_failure_exits_with_zero_witness :
  install_airflow (H := offline_host) (PStr "2.7.0") venv
    "https://example.org/constraints.txt" "" "" false (world_of built_fs)
  = (Raise SystemExit,
     mkWorld built_fs (environ (world_of built_fs))
       (trace (world_of built_fs) ++
        [EvRun (version_probe venv);
         EvShell (install_command (H := offline_host) (PStr "2.7.0") venv
                    "https://example.org/constraints.txt" "" "");
         EvEcho "[bold red]Error occurred during installation.[/bold red]"]))
  ∧ exit_code SystemExit = 0%Z.
Proof.
  apply (install_airflow_failure_exits_with_zero (H := offline_host)
           (PStr "2.7.0") venv "https://example.org/constraints.txt" "" ""
           (world_of built_fs) 1%Z "" built_fs 1%Z "" built_fs).
  - vm_compute. reflexivity.
  - reflexivity.
  - done.
  - vm_compute. reflexivity.
  - reflexivity.
  - done.
Defined.





Lemma start_without_env_file_witness :
  start (H := sample_host) proj (world_of no_env_fs)
  = (Raise (TyperExit 1), echoed [".env file not found."] (world_of no_env_fs)).
Proof.
  apply (start_without_env_file (H := sample_host)).
  - vm_compute. reflexivity.
  - vm_compute. reflexivity.
Defined.

(** [.env] gives an [AIRFLOW_HOME] of its own; the child still gets the
    project path. *)
Lemma start_launches_from_configured_venv_witness :
  let kvs := [("AIRFLOW_HOME", "/from/dotenv"); ("TZ", "UTC")] in
  let w := world_of configured_fs in
  start (H := installing_host) proj w
  = (Ok tt,
     mkWorld configured_fs
       (launch_environ (H := installing_host) proj kvs (environ w))
       (trace w ++
        [EvShell (launch_command
                    (abspath (Host := installing_host) "/opt/venv"))]))
  ∧ launch_environ (H := installing_host) proj kvs (environ w)
      !! "AIRFLOW_HOME" = Some (path_str proj).
Proof.
  apply (start_launches_from_configured_venv (H := installing_host) proj
           (world_of configured_fs) "venv_path: /opt/venv"
           (env_text proj) [("venv_path", PStr "/opt/venv")]
           [("AIRFLOW_HOME", "/from/dotenv"); ("TZ", "UTC")] "/opt/venv" ""
           configured_fs).
  1-6: vm_compute; reflexivity.
  reflexivity.
Defined.

Lemma start_launches_from_conventional_venv_witness :
  let d := [("python_version", PInt 3)] in
  let w := world_of launch_fs in
  start (H := sample_host) proj w
  = (Ok tt,
     mkWorld launch_fs (launch_environ (H := sample_host) proj [] (environ w))
       (trace w ++
        [EvShell (launch_command
                    (abspath (Host := sample_host)
                       (default_venv (H := sample_host) proj d)))])).
Proof.
  apply (start_launches_from_conventional_venv (H := sample_host) proj
           (world_of launch_fs) "python_version: 3" (env_text proj)
           [("python_version", PInt 3)] [] "" launch_fs).
  1-6: vm_compute; reflexivity.
  reflexivity.
Defined.

Lemma start_reports_failed_launch_witness :
  let w := world_of configured_fs in
  let cmd := launch_command (abspath (Host := offline_host) "/opt/venv") in
  start (H := offline_host) proj w
  = (Raise (TyperExit 1),
     mkWorld configured_fs (launch_environ (H := offline_host) proj [] (environ w))
       (trace w ++
        [EvShell cmd;
         EvEcho ("Error starting Airflow: Command '" +:+ cmd
                 +:+ "' returned non-zero exit status " +:+ pretty 1%Z
                 +:+ ".")])).
Proof.
  apply (start_reports_failed_launch (H := offline_host) proj
           (world_of configured_fs) "venv_path: /opt/venv" (env_text proj)
           [("venv_path", PStr "/opt/venv")] [] "/opt/venv" 1%Z ""
           configured_fs).
  1-6: vm_compute; reflexivity.
  - reflexivity.
  - lia.
Defined.

Lemma start_on_unsupported_host_witness :
  let w := world_of configured_fs in
  start (H := other_host) proj w
  = (Raise (TyperExit 1),
     mkWorld (fs w) (launch_environ (H := other_host) proj [] (environ w))
       (trace w ++ [EvEcho "Unsupported operating system."])).
Proof.
  apply (start_on_unsupported_host (H := other_host) proj
           (world_of configured_fs) "venv_path: /opt/venv" (env_text proj)
           [("venv_path", PStr "/opt/venv")] [] "/opt/venv").
  1-5: vm_compute; reflexivity.
  - done.
  - done.
Defined.

Lemma start_with_non_mapping_config_witness :
  let w := world_of empty_config_fs in
  start (H := other_host) proj w
  = (Raise (Exc AttributeError),
     mkWorld (fs w) (launch_environ (H := other_host) proj [] (environ w))
       (trace w)).
Proof.
  apply (start_with_non_mapping_config (H := other_host) proj
           (world_of empty_config_fs) "" (env_text proj) PNone []).
  1-3: vm_compute; reflexivity.
  - done.
  - vm_compute. reflexivity.
Defined.


Lemma get_latest_airflow_version_contains_request_errors_witness :
  (get_latest_airflow_version (H := sample_host) true
     (Replied (Decodes (PList [PStr "2.9.1"]))) (world_of fresh_fs)).1
  = Raise (Exc TypeError)
  ∧ is_request_or_key_error TypeError = false.
Proof.
  split; [vm_compute; reflexivity|].
  apply (get_latest_airflow_version_contains_request_errors (H := sample_host)
           true (Replied (Decodes (PList [PStr "2.9.1"]))) (world_of fresh_fs)).
  vm_compute. reflexivity.
Defined.

Lemma init_asks_nothing_on_empty_target_witness :
  init (H := sample_host) true proj "2.7.0" "3.10" (world_of fresh_fs)
  = init (H := sample_host) false proj "2.7.0" "3.10" (world_of fresh_fs).
Proof.
  apply (init_asks_nothing_on_empty_target (H := sample_host)).
  vm_compute. reflexivity.
Defined.

Lemma init_declined_changes_nothing_witness :
  let w := world_of edited_fs in
  init (H := sample_host) false proj "2.8.0" "3.11" w
  = (Raise TyperAbort,
     mkWorld (fs w) (environ w)
       (trace w ++ [EvConfirm ("Directory " +:+ path_str proj
                               +:+ " is not empty. Continue?")])).
Proof.
  apply (init_declined_changes_nothing (H := sample_host) proj "2.8.0" "3.11"
           (world_of edited_fs)).
  - vm_compute. reflexivity.
  - vm_compute. discriminate.
Defined.

Lemma init_keeps_existing_dags_witness :
  fs (init (H := sample_host) true proj "2.7.0" "3.10"
        (world_of edited_dag_fs)).2
    !! child (child proj "dags") "example.py" = Some (File "dag = 2").
Proof.
  apply (init_keeps_existing_dags (H := sample_host) true proj "2.7.0" "3.10"
           (world_of edited_dag_fs)).
  vm_compute. reflexivity.
Defined.

Lemma init_copies_bundled_example_witness :
  fs (init (H := sample_host) true proj "2.7.0" "3.10" (world_of fresh_fs)).2
    !! child (child proj "dags") "example.py" = Some (File "dag = 1").
Proof.
  apply (init_copies_bundled_example (H := sample_host) true proj
           "2.7.0" "3.10" (world_of fresh_fs)).
  - apply run_pair. vm_compute. reflexivity.
  - vm_compute. reflexivity.
  - vm_compute. reflexivity.
Defined.

Lemma init_again_changes_nothing_witness :
  let w := world_of initial_fs in
  init (H := sample_host) true proj "2.8.0" "3.11" w
  = (Ok tt,
     mkWorld (fs w) (environ w)
       (trace w ++
        [EvConfirm ("Directory " +:+ path_str proj +:+ " is not empty. Continue?");
         EvEcho ("Airflow project initialized in " +:+ path_str proj)])).
Proof.
  apply (init_again_changes_nothing (H := sample_host) proj "2.8.0" "3.11"
           (world_of initial_fs)).
  1-3: vm_compute; reflexivity.
  - vm_compute. eauto.
  - vm_compute. reflexivity.
  - vm_compute. eauto.
  - vm_compute. eauto.
  - vm_compute. reflexivity.
  - intros n Hn. apply listdir_elem in Hn.
    assert (Hls : listdir (fs (world_of initial_fs))
                    (child (package_dir (Host := sample_host)) "dags")
                  = ["example.py"]) by (vm_compute; reflexivity).
    rewrite Hls in Hn. apply list_elem_of_singleton in Hn as ->.
    vm_compute. eauto.
Defined.
